(** * MatchMyStack: the matching and embedding subsystem

    A shallow embedding of [app/services/matching_engine.py] and of the
    fit-once logic of [app/services/embedding_engine.py], with the
    properties the specification states about them.

    Conventions.
    - A Python [float] is an exact rational ([Q]); literals such as [0.45]
      are the fractions they denote, and [==] is equality of rationals.
    - A Python [str] is a [string] of ASCII characters.
    - A Python exception is a value of [exn]; code that can raise lives in
      the [result] monad, and [try ... except Exception] is [try_except].
    - The records passed around as [Dict] are modelled by the record
      [Dict], one optional field per key the code reads.
    - scikit-learn (the TF-IDF vectorizer and the cosine similarity) is
      outside the repository: its functions are section variables.
    - Python leaves the iteration order of a [set] open; where the code
      lists a set, the model lists it with [elements]. *)

From Stdlib Require Import ZArith QArith Qminmax Qround Lia Lqa.
From Stdlib Require Import String Ascii List Sorted Permutation.
From stdpp Require Import base decidable option list sorting.
From stdpp Require Import gmap sets strings pretty.

Set Warnings "-clear-no-such-hyp".

Local Open Scope Q_scope.
Local Open Scope string_scope.
Local Open Scope list_scope.

(** ** Exceptions *)

Inductive exn : Type :=
  | TypeError
  | ValueError
  | KeyError
  | NotFittedError.

Inductive result (A : Type) : Type :=
  | Ok (a : A)
  | Raise (e : exn).
Arguments Ok {A} a.
Arguments Raise {A} e.

#[global] Instance result_ret : MRet result := λ A a, Ok a.
#[global] Instance result_bind : MBind result := λ A B f m,
  match m with
  | Ok a => f a
  | Raise e => Raise e
  end.

(** [try: body except Exception: handler] *)
Definition try_except {A} (body : result A) (handler : exn → result A)
  : result A :=
  match body with
  | Ok a => Ok a
  | Raise e => handler e
  end.

(** ** Python values that occur in scalar fields *)

Inductive pyval : Type :=
  | PyNone
  | PyInt (z : Z)
  | PyStr (s : string).

(** [a < b]: defined between two ints and between two strs. *)
Definition py_lt (a b : pyval) : result bool :=
  match a, b with
  | PyInt x, PyInt y => Ok (x <? y)%Z
  | PyStr x, PyStr y => Ok (String.ltb x y)
  | _, _ => Raise TypeError
  end.

Definition py_gt (a b : pyval) : result bool := py_lt b a.

(** [a <= b] *)
Definition py_le (a b : pyval) : result bool :=
  match a, b with
  | PyInt x, PyInt y => Ok (x <=? y)%Z
  | PyStr x, PyStr y => Ok (String.leb x y)
  | _, _ => Raise TypeError
  end.

(** [a - b]: defined on ints only ([str - str] is a TypeError). *)
Definition py_sub (a b : pyval) : result Z :=
  match a, b with
  | PyInt x, PyInt y => Ok (x - y)%Z
  | _, _ => Raise TypeError
  end.

(** [str(v)] *)
Definition py_str (v : pyval) : string :=
  match v with
  | PyNone => "None"
  | PyInt z => pretty z
  | PyStr s => s
  end.

(** ** Strings *)

Fixpoint string_map (f : ascii → ascii) (s : string) : string :=
  match s with
  | EmptyString => EmptyString
  | String c s' => String (f c) (string_map f s')
  end.

Fixpoint string_filter (p : ascii → bool) (s : string) : string :=
  match s with
  | EmptyString => EmptyString
  | String c s' =>
      if p c then String c (string_filter p s') else string_filter p s'
  end.

Fixpoint string_drop_while (p : ascii → bool) (s : string) : string :=
  match s with
  | EmptyString => EmptyString
  | String c s' => if p c then string_drop_while p s' else s
  end.

(** [c.lower()] on ASCII: A-Z go to a-z. *)
Definition ascii_lower (c : ascii) : ascii :=
  let n := N_of_ascii c in
  if ((65 <=? n) && (n <=? 90))%N then ascii_of_N (n + 32) else c.

(** The ASCII characters [str.strip()] removes: tab, LF, VT, FF, CR, the
    separators 28-31 and the space. *)
Definition py_isspace (c : ascii) : bool :=
  let n := N_of_ascii c in
  (((9 <=? n) && (n <=? 13)) || ((28 <=? n) && (n <=? 32)))%N.

Definition py_lower (s : string) : string := string_map ascii_lower s.

Definition py_strip (s : string) : string :=
  String.rev (string_drop_while py_isspace
    (String.rev (string_drop_while py_isspace s))).

(** [s.replace(c, '')] for a one-character [c] *)
Definition py_remove (c : ascii) (s : string) : string :=
  string_filter (λ x, negb (Ascii.eqb x c)) s.

(** [normalize_skill], matching_engine.py line 10 *)
Definition normalize_skill (skill : string) : string :=
  py_remove "_" (py_remove "-" (py_remove " " (py_remove "."
    (py_strip (py_lower skill))))).

(** ** Skill overlap *)

(** [{normalize_skill(s): s for s in skills}]: a later skill with the same
    key overwrites the spelling of an earlier one. *)
Definition skill_dict (skills : list string) : gmap string string :=
  foldl (λ m s, <[normalize_skill s := s]> m) ∅ skills.

(** [d[k]] *)
Definition dict_getitem (d : gmap string string) (k : string)
  : result string :=
  match d !! k with
  | Some v => Ok v
  | None => Raise KeyError
  end.

(** [sorted(keys)] for a set of strings *)
Definition py_sorted (keys : gset string) : list string :=
  merge_sort String.le (elements keys).

(** [len(x)] as a float operand *)
Definition Qlen {A} (l : list A) : Q := inject_Z (Z.of_nat (length l)).
Definition Qsize (s : gset string) : Q := inject_Z (Z.of_nat (size s)).

(** [calculate_skill_overlap], matching_engine.py lines 69-108 *)
Definition calculate_skill_overlap (user_skills required_skills : list string)
  : result (Q * list string * list string) :=
  if decide (required_skills = []) then Ok (1 # 2, [], []) else
  let user_normalized := skill_dict user_skills in
  let req_normalized := skill_dict required_skills in
  let shared_keys := dom user_normalized ∩ dom req_normalized in
  let comp_keys := dom req_normalized ∖ dom user_normalized in
  shared ← mapM (dict_getitem req_normalized) (py_sorted shared_keys);
  complementary ← mapM (dict_getitem req_normalized) (py_sorted comp_keys);
  let overlap_ratio :=
    if decide (req_normalized = ∅) then 0
    else Qsize shared_keys / Qsize (dom req_normalized) in
  let user_only_keys := dom user_normalized ∖ dom req_normalized in
  let complementary_bonus := Qmin (Qsize user_only_keys * (5 # 100)) (2 # 10) in
  let score := Qmin (overlap_ratio + complementary_bonus) 1 in
  Ok (score, shared, complementary).

(** ** Records

    [Dict] has one field per key that the engines read; [None] stands for
    a key that is absent or bound to Python's [None] wherever the code
    treats the two alike.  The scalar fields the code compares or prints
    ([id], [experience_years], [min_experience], [max_experience]) hold a
    [pyval], so that [Some PyNone] (the key is bound to [None]) and a
    string where a number is expected can be told apart from [None] (the
    key is absent and [.get] supplies its default). *)

Record Hackathons : Type := mkHackathons {
  has_hackathon_experience : bool;
  wins_first : option Z;
  wins_second : option Z;
  total_hackathons : option Z;
}.

Record Dict : Type := mkDict {
  d_id : option pyval;
  d_roles : option (list string);
  d_skills : option (list string);
  d_skills_by_category : option (list (string * list string));
  d_experience_years : option pyval;
  d_hackathons : option Hackathons;
  d_bio : option string;
  d_interests : option (list string);
  d_project_types : option (list string);
  d_timezone : option string;
  d_embedding : option (list Q);
  d_title : option string;
  d_description : option string;
  d_required_roles : option (list string);
  d_required_skills : option (list string);
  d_min_experience : option pyval;
  d_max_experience : option pyval;
  d_project_type : option string;
  d_project_idea : option string;
  d_looking_for_roles : option (list string);
  d_looking_for_skills : option (list string);
}.

(** The empty dict [{}] *)
Definition empty_dict : Dict :=
  {| d_id := None;
     d_roles := None;
     d_skills := None;
     d_skills_by_category := None;
     d_experience_years := None;
     d_hackathons := None;
     d_bio := None;
     d_interests := None;
     d_project_types := None;
     d_timezone := None;
     d_embedding := None;
     d_title := None;
     d_description := None;
     d_required_roles := None;
     d_required_skills := None;
     d_min_experience := None;
     d_max_experience := None;
     d_project_type := None;
     d_project_idea := None;
     d_looking_for_roles := None;
     d_looking_for_skills := None |}.

(** [Match], matching_engine.py lines 15-22 *)
Record Match : Type := mkMatch {
  target_id : string;
  score : Q;
  reasons : list string;
  shared_skills : list string;
  complementary_skills : list string;
}.

(** [a or b] where [a] is a list or None: [a] when it is a non-empty list *)
Definition py_or_list {A} (a : option (list A)) (b : list A) : list A :=
  match a with
  | Some (x :: l) => x :: l
  | _ => b
  end.

(** [a or b] where both sides may be None or a list *)
Definition py_or {A} (a b : option (list A)) : option (list A) :=
  match a with
  | Some (x :: l) => Some (x :: l)
  | _ => b
  end.

(** [bool(s)] for a string or None *)
Definition truthy_str (s : option string) : bool :=
  match s with
  | Some (String _ _) => true
  | _ => false
  end.

(** [int(q)]: truncation towards zero *)
Definition py_int (q : Q) : Z := Z.quot (Qnum q) (Zpos (Qden q)).

(** [round(q)] to an integer, ties to even, as float formatting rounds *)
Definition round_half_even (q : Q) : Z :=
  let f := Qfloor q in
  match Qcompare (q - inject_Z f) (1 # 2) with
  | Lt => f
  | Gt => (f + 1)%Z
  | Eq => if Z.even f then f else (f + 1)%Z
  end.

(** [f"{q:.0%}"] *)
Definition format_percent (q : Q) : string :=
  pretty (round_half_even (q * 100)) +:+ "%".

(** [sep.join(l)] *)
Fixpoint py_join (sep : string) (l : list string) : string :=
  match l with
  | [] => ""
  | [x] => x
  | x :: l' => x +:+ sep +:+ py_join sep l'
  end.

(** [list(s)] for a set [s].  Python leaves the order of a set
    unspecified; the model enumerates it with [elements]. *)
Definition py_list_of_set (s : gset string) : list string := elements s.

(** ** The scoring engine, [class MatchingEngine] *)

(** The [WEIGHTS] table, matching_engine.py lines 40-47 *)
Module WEIGHTS.
Definition skill_overlap : Q := 45 # 100.
Definition embedding_similarity : Q := 25 # 100.
Definition role_match : Q := 15 # 100.
Definition experience_fit : Q := 6 # 100.
Definition hackathon_bonus : Q := 5 # 100.
Definition availability : Q := 4 # 100.

(** Every entry of the table *)
Definition table : list (string * Q) :=
  [ ("skill_overlap", skill_overlap);
    ("embedding_similarity", embedding_similarity);
    ("role_match", role_match);
    ("experience_fit", experience_fit);
    ("hackathon_bonus", hackathon_bonus);
    ("availability", availability) ].
End WEIGHTS.

(** [calculate_role_match], lines 59-67 *)
Definition calculate_role_match (user_roles required_roles : option (list string))
  : Q * list string :=
  match required_roles with
  | None | Some [] => (1, [])
  | Some (r :: rs) =>
      let user_set : gset string :=
        list_to_set (py_lower <$> py_or_list user_roles []) in
      let req_set : gset string := list_to_set (py_lower <$> (r :: rs)) in
      let matched := py_list_of_set (user_set ∩ req_set) in
      let ratio :=
        if decide (req_set = ∅) then 0 else Qlen matched / Qsize req_set in
      (ratio, matched)
  end.

(** [calculate_experience_fit], lines 110-118 *)
Definition calculate_experience_fit (user_exp required_exp_min required_exp_max : pyval)
  : result Q :=
  under ← py_lt user_exp required_exp_min;
  if under : bool then
    gap ← py_sub required_exp_min user_exp;
    Ok (Qmax (5 # 10) (1 - inject_Z gap * (15 # 100)))
  else
    over ← py_gt user_exp required_exp_max;
    if over : bool then
      gap ← py_sub user_exp required_exp_max;
      Ok (Qmax (7 # 10) (1 - inject_Z gap * (5 # 100)))
    else Ok 1.

(** [calculate_availability_score], lines 120-124 *)
Definition calculate_availability_score (user_tz project_tz : option string) : Q :=
  if negb (truthy_str user_tz) || negb (truthy_str project_tz) then 1
  else if decide (user_tz = project_tz) then 1 else 8 # 10.

(** The tie-break boost and the clamp, lines 181-185 *)
Definition boost_and_clamp (final_score : Q) (shared_skills : list string) : Q :=
  let final_score := final_score + Qmin (Qlen shared_skills * (2 # 100)) (12 # 100) in
  Qmax 0 (Qmin 1 final_score).

(** The human-readable reasons, lines 188-200 *)
Definition build_reasons (proj_skills shared_skills matched_roles complementary : list string)
    (emb_score : Q) : list string :=
  let shared_count := Z.of_nat (length shared_skills) in
  let required_count := Z.of_nat (length proj_skills) in
  (if (0 <? shared_count)%Z
   then [pretty shared_count +:+ "/" +:+ pretty required_count
           +:+ " required skills matched"]
   else [])
  ++ (if ((0 <? required_count)%Z
          && (Z.max 1 (py_int (inject_Z required_count * (8 # 10))) <=? shared_count)%Z)
      then ["Strong skill match!"] else [])
  ++ (match matched_roles with
      | [] => []
      | _ => ["Role fit: " +:+ py_join ", " matched_roles]
      end)
  ++ (if (3 <=? Z.of_nat (length complementary))%Z
      then ["+" +:+ pretty (Z.of_nat (length complementary)) +:+ " bonus skills"]
      else [])
  ++ (match Qcompare emb_score (7 # 10) with
      | Gt => ["Profile similarity: " +:+ format_percent emb_score]
      | _ => []
      end).

Section Engine.

(** [EmbeddingEngine.cosine_similarity]: scikit-learn's cosine similarity
    of two vectors, which raises on vectors it cannot compare. *)
Variable cosine_similarity : list Q → list Q → result Q.

(** [calculate_embedding_score], lines 50-57 *)
Definition calculate_embedding_score (emb1 emb2 : option (list Q)) : result Q :=
  match emb1, emb2 with
  | Some v1, Some v2 => try_except (cosine_similarity v1 v2) (λ _, Ok 0)
  | _, _ => Ok 0
  end.

(** The weights that lines 172-178 multiply a sub-score with, in the
    order skill, embedding, role, experience, availability. *)
Definition applied_weights : list Q :=
  [ WEIGHTS.skill_overlap; WEIGHTS.embedding_similarity; WEIGHTS.role_match;
    WEIGHTS.experience_fit; WEIGHTS.availability ].

(** The weighted sum of lines 172-178 *)
Definition weighted_sum (skill_score emb_score role_score exp_score avail_score : Q) : Q :=
  skill_score * WEIGHTS.skill_overlap
  + emb_score * WEIGHTS.embedding_similarity
  + role_score * WEIGHTS.role_match
  + exp_score * WEIGHTS.experience_fit
  + avail_score * WEIGHTS.availability.

(** [match_user_to_project], lines 127-211 *)
Definition match_user_to_project (user_data project_data : Dict) : result Match :=
  let proj_skills :=
    py_or_list (d_skills project_data)
      (py_or_list (d_required_skills project_data) []) in
  let user_skills := py_or_list (d_skills user_data) [] in
  '(skill_score, shared_skills, complementary) ←
    calculate_skill_overlap user_skills proj_skills;
  emb_score ←
    match d_embedding user_data, d_embedding project_data with
    | Some _, Some _ =>
        calculate_embedding_score (d_embedding user_data) (d_embedding project_data)
    | _, _ => Ok 0
    end;
  let '(role_score, matched_roles) :=
    calculate_role_match (d_roles user_data)
      (py_or (d_required_roles project_data) (d_roles project_data)) in
  exp_score ←
    calculate_experience_fit
      (default (PyInt 0) (d_experience_years user_data))
      (default (PyInt 0) (d_min_experience project_data))
      (default (PyInt 10) (d_max_experience project_data));
  let avail_score :=
    calculate_availability_score (d_timezone user_data) (d_timezone project_data) in
  let final_score :=
    weighted_sum skill_score emb_score role_score exp_score avail_score in
  let final_score := boost_and_clamp final_score shared_skills in
  let reasons :=
    build_reasons proj_skills shared_skills matched_roles complementary emb_score in
  Ok {| target_id := py_str (default (PyStr "unknown") (d_id project_data));
        score := final_score;
        reasons := reasons;
        shared_skills := shared_skills;
        complementary_skills := complementary |}.

(** *** Ranking *)

(** The sort key of line 225: [(mm.score, len(mm.shared_skills))] *)
Definition sort_key (m : Match) : Q * nat := (score m, length (shared_skills m)).

(** Tuple comparison [k1 < k2] *)
Definition key_ltb (k1 k2 : Q * nat) : bool :=
  match Qcompare (fst k1) (fst k2) with
  | Lt => true
  | Eq => (snd k1 <? snd k2)%nat
  | Gt => false
  end.

(** [list.sort(key=..., reverse=True)] is stable: of two matches with
    equal keys the one that came first stays first. *)
Fixpoint insert_desc (m : Match) (l : list Match) : list Match :=
  match l with
  | [] => [m]
  | y :: l' =>
      if key_ltb (sort_key m) (sort_key y) then y :: insert_desc m l'
      else m :: y :: l'
  end.

Definition sort_matches (l : list Match) : list Match :=
  foldr insert_desc [] l.

(** [l[:k]] for any integer [k]: a negative [k] counts from the end. *)
Definition py_slice_to {A} (l : list A) (k : Z) : list A :=
  if (0 <=? k)%Z then take (Z.to_nat k) l
  else take (length l - Z.to_nat (- k)) l.

(** One turn of the loop of lines 218-223: a candidate whose match
    raises is logged and left out. *)
Definition rank_step (project_data : Dict) (matches : list Match) (candidate : Dict)
  : result (list Match) :=
  try_except
    (m ← match_user_to_project candidate project_data; Ok (matches ++ [m]))
    (λ _, Ok matches).

Fixpoint rank_loop (project_data : Dict) (candidates : list Dict) (matches : list Match)
  : result (list Match) :=
  match candidates with
  | [] => Ok matches
  | candidate :: rest =>
      matches ← rank_step project_data matches candidate;
      rank_loop project_data rest matches
  end.

(** [rank_candidates], lines 215-226 *)
Definition rank_candidates (candidates : list Dict) (project_data : Dict) (top_k : Z)
  : result (list Match) :=
  matches ← rank_loop project_data candidates [];
  Ok (py_slice_to (sort_matches matches) top_k).

End Engine.

(** ** The featurizer, [class EmbeddingEngine] *)

Definition DEFAULT_DIM : nat := 384.

(** [skills[:n]] and [text[:n]] for a non-negative literal [n] *)
Definition str_prefix (n : nat) (s : string) : string := substring 0 n s.

(** The argument of [normalize_skills]: a list of skills or a dict from a
    category to its skills. *)
Inductive skills_arg : Type :=
  | SkillList (l : list string)
  | SkillDict (l : list (string * list string)).

(** [normalize_skills], embedding_engine.py lines 30-38 *)
Definition normalize_skills (skills : skills_arg) : list string :=
  match skills with
  | SkillDict cats =>
      let all_skills := concat (snd <$> cats) in
      py_list_of_set (list_to_set all_skills)
  | SkillList l => py_list_of_set (list_to_set l)
  end.

(** [profile_data.get("skills") or profile_data.get("skills_by_category") or []] *)
Definition profile_skills_arg (profile_data : Dict) : skills_arg :=
  match d_skills profile_data with
  | Some (x :: l) => SkillList (x :: l)
  | _ =>
      match d_skills_by_category profile_data with
      | Some (c :: cs) => SkillDict (c :: cs)
      | _ => SkillList []
      end
  end.

(** The experience label of lines 63-70 *)
Definition experience_level (exp_years : pyval) : result string :=
  junior ← py_le exp_years (PyInt 1);
  if junior : bool then Ok "Junior" else
  mid ← py_le exp_years (PyInt 3);
  if mid : bool then Ok "Mid-level" else
  senior ← py_le exp_years (PyInt 7);
  if senior : bool then Ok "Senior" else Ok "Expert".

(** The hackathon clause of lines 73-82 *)
Definition hackathon_parts (h : option Hackathons) : list string :=
  match h with
  | None => []
  | Some h =>
      if has_hackathon_experience h then
        if (0 <? default 0 (wins_first h))%Z then
          ["Hackathon winner with " +:+ pretty (default 0%Z (wins_first h)) +:+ " wins"]
        else if (0 <? default 0 (wins_second h))%Z then
          ["Hackathon finalist and top performer"]
        else if (3 <=? default 0 (total_hackathons h))%Z then
          ["Active hackathon participant"]
        else []
      else []
  end.

(** [create_profile_text], lines 43-93 *)
Definition create_profile_text (profile_data : Dict) : result string :=
  let roles_parts :=
    match d_roles profile_data with
    | Some (r :: rs) =>
        let roles_text := py_join ", " (r :: rs) in
        ["Roles: " +:+ roles_text; "Position: " +:+ roles_text]
    | _ => []
    end in
  let skills := normalize_skills (profile_skills_arg profile_data) in
  let skills_parts :=
    match skills with
    | [] => []
    | _ =>
        let skills_text := py_join ", " (take 20 skills) in
        ["Technical Skills: " +:+ skills_text;
         "Expertise: " +:+ skills_text;
         "Proficient in: " +:+ skills_text]
    end in
  let exp_years := default (PyInt 0) (d_experience_years profile_data) in
  exp_parts ←
    match exp_years with
    | PyNone => Ok []
    | _ =>
        level ← experience_level exp_years;
        Ok ["Experience: " +:+ py_str exp_years +:+ " years, " +:+ level +:+ " level"]
    end;
  let bio_parts :=
    match d_bio profile_data with
    | Some (String c s) => ["About: " +:+ str_prefix 200 (String c s)]
    | _ => []
    end in
  let interests_parts :=
    match d_interests profile_data with
    | Some (i :: l) => ["Interests: " +:+ py_join ", " (take 5 (i :: l))]
    | _ => []
    end in
  let types_parts :=
    match d_project_types profile_data with
    | Some (t :: l) => ["Looking to build: " +:+ py_join ", " (t :: l)]
    | _ => []
    end in
  Ok (py_join " | "
        (roles_parts ++ skills_parts ++ exp_parts
           ++ hackathon_parts (d_hackathons profile_data)
           ++ bio_parts ++ interests_parts ++ types_parts)).

(** [create_project_text], lines 95-120 *)
Definition create_project_text (project_data : Dict) : result string :=
  let title_parts :=
    if truthy_str (d_title project_data)
    then ["Project: " +:+ default "" (d_title project_data)] else [] in
  let description_parts :=
    if truthy_str (d_description project_data)
    then ["Description: " +:+ str_prefix 300 (default "" (d_description project_data))]
    else [] in
  let roles_parts :=
    match d_required_roles project_data with
    | Some (r :: rs) =>
        let r := py_join ", " (r :: rs) in ["Looking for: " +:+ r; "Need: " +:+ r]
    | _ => []
    end in
  let skills :=
    normalize_skills (SkillList (py_or_list (d_required_skills project_data) [])) in
  let skills_parts :=
    match skills with
    | [] => []
    | _ =>
        let s := py_join ", " skills in
        ["Required skills: " +:+ s; "Tech stack: " +:+ s; "Technologies: " +:+ s]
    end in
  let min_exp := default (PyInt 0) (d_min_experience project_data) in
  let max_exp := default (PyInt 10) (d_max_experience project_data) in
  min_pos ← py_gt min_exp (PyInt 0);
  bounded ← (if min_pos : bool then Ok true else py_lt max_exp (PyInt 10));
  let exp_parts :=
    if bounded : bool
    then ["Experience needed: " +:+ py_str min_exp +:+ "-" +:+ py_str max_exp +:+ " years"]
    else [] in
  let type_parts :=
    if truthy_str (d_project_type project_data)
    then ["Category: " +:+ default "" (d_project_type project_data)] else [] in
  Ok (py_join " | "
        (title_parts ++ description_parts ++ roles_parts ++ skills_parts
           ++ exp_parts ++ type_parts)).

(** [create_teammate_request_text], lines 122-136 *)
Definition create_teammate_request_text (r : Dict) : string :=
  let idea_parts :=
    if truthy_str (d_project_idea r)
    then ["Building: " +:+ str_prefix 200 (default "" (d_project_idea r))] else [] in
  let roles_parts :=
    match d_looking_for_roles r with
    | Some (x :: l) =>
        let roles := py_join ", " (x :: l) in
        ["Looking for: " +:+ roles; "Need teammates with roles: " +:+ roles]
    | _ => []
    end in
  let skills_parts :=
    match d_looking_for_skills r with
    | Some (x :: l) =>
        let s := py_join ", " (x :: l) in
        ["Need skills: " +:+ s; "Required expertise: " +:+ s; "Tech stack: " +:+ s]
    | _ => []
    end in
  py_join " | " (idea_parts ++ roles_parts ++ skills_parts).

Section Featurizer.

(** scikit-learn's [TfidfVectorizer]: what a fit learns, the fit itself
    (which raises on a corpus with no usable term) and the transform of
    one text into a row of weights. *)
Variable Vocabulary : Type.
Variable vectorizer_fit : list string → result Vocabulary.
Variable vectorizer_transform : Vocabulary → string → list Q.

(** The attributes of an [EmbeddingEngine]; [vectorizer] is [None] until
    a fit has succeeded. *)
Record EmbeddingEngine : Type := mkEngine {
  vectorizer : option Vocabulary;
  embedding_dim : nat;
  _fitted : bool;
  _corpus : list string;
}.

(** [__init__], lines 20-25 *)
Definition EmbeddingEngine_init : EmbeddingEngine :=
  {| vectorizer := None; embedding_dim := DEFAULT_DIM;
     _fitted := false; _corpus := [] |}.

(** [_ensure_fitted], lines 141-145 *)
Definition _ensure_fitted (self : EmbeddingEngine) (texts : list string)
  : result unit * EmbeddingEngine :=
  if _fitted self then (Ok tt, self)
  else
    let self := {| vectorizer := vectorizer self;
                   embedding_dim := embedding_dim self;
                   _fitted := _fitted self;
                   _corpus := texts |} in
    match vectorizer_fit texts with
    | Raise e => (Raise e, self)
    | Ok v =>
        (Ok tt, {| vectorizer := Some v;
                   embedding_dim := embedding_dim self;
                   _fitted := true;
                   _corpus := _corpus self |})
    end.

(** Lines 152-157: pad with zeros on the right, or truncate. *)
Definition fix_width (dim : nat) (row : list Q) : list Q :=
  if (length row <? dim)%nat
  then row ++ replicate (dim - length row) 0
  else take dim row.

(** [self.vectorizer.transform([text]).toarray()[0]] *)
Definition transform_row (self : EmbeddingEngine) (text : string)
  : result (list Q) :=
  match vectorizer self with
  | None => Raise NotFittedError
  | Some v => Ok (vectorizer_transform v text)
  end.

(** [_encode_text], lines 147-157 *)
Definition _encode_text (self : EmbeddingEngine) (text : string)
  : result (list Q) * EmbeddingEngine :=
  let '(r, self) :=
    if _fitted self then (Ok tt, self) else _ensure_fitted self [text] in
  match r with
  | Raise e => (Raise e, self)
  | Ok _ =>
      (row ← transform_row self text;
       Ok (fix_width (embedding_dim self) row), self)
  end.

(** [embed_profile], [embed_project] and [embed_teammate_request],
    lines 162-169 *)
Definition embed_profile (self : EmbeddingEngine) (profile_data : Dict)
  : result (list Q) * EmbeddingEngine :=
  match create_profile_text profile_data with
  | Raise e => (Raise e, self)
  | Ok text => _encode_text self text
  end.

Definition embed_project (self : EmbeddingEngine) (project_data : Dict)
  : result (list Q) * EmbeddingEngine :=
  match create_project_text project_data with
  | Raise e => (Raise e, self)
  | Ok text => _encode_text self text
  end.

Definition embed_teammate_request (self : EmbeddingEngine) (r : Dict)
  : result (list Q) * EmbeddingEngine :=
  _encode_text self (create_teammate_request_text r).

(** *** The facade, [class MatchingEngineWrapper] *)

(** [embedding_engine] is [None] when the engine could not be built
    (lines 234-240). *)
Record MatchingEngineWrapper : Type := mkWrapper {
  embedding_engine : option EmbeddingEngine;
}.

(** [[0.1] * 384] *)
Definition filler_vector : list Q := replicate 384 (1 # 10).

(** [ensure_embedding], lines 243-257 *)
Definition ensure_embedding (self : MatchingEngineWrapper) (data_dict : Dict)
    (kind : string) : result (list Q) * MatchingEngineWrapper :=
  match embedding_engine self with
  | None => (Ok filler_vector, self)
  | Some engine =>
      let '(emb, engine) :=
        if decide (kind = "profile")
        then embed_profile engine data_dict
        else embed_project engine data_dict in
      (try_except emb (λ _, Ok filler_vector),
       {| embedding_engine := Some engine |})
  end.

(** *** Histories of calls on one engine *)

Inductive call : Type :=
  | CallEnsureFitted (texts : list string)
  | CallEncodeText (text : string)
  | CallEmbedProfile (profile_data : Dict)
  | CallEmbedProject (project_data : Dict)
  | CallEmbedTeammateRequest (r : Dict).

Definition run_call (self : EmbeddingEngine) (c : call) : EmbeddingEngine :=
  match c with
  | CallEnsureFitted texts => snd (_ensure_fitted self texts)
  | CallEncodeText text => snd (_encode_text self text)
  | CallEmbedProfile d => snd (embed_profile self d)
  | CallEmbedProject d => snd (embed_project self d)
  | CallEmbedTeammateRequest r => snd (embed_teammate_request self r)
  end.

Definition run_calls (self : EmbeddingEngine) (cs : list call) : EmbeddingEngine :=
  foldl run_call self cs.

(** What holds of every engine the constructor and the methods produce:
    the width is the default one, and a fitted engine has a vocabulary. *)
Definition engine_ok (self : EmbeddingEngine) : Prop :=
  embedding_dim self = DEFAULT_DIM
  ∧ (_fitted self = true → ∃ v, vectorizer self = Some v).

End Featurizer.

Arguments mkEngine {Vocabulary}.
Arguments vectorizer {Vocabulary}.
Arguments embedding_dim {Vocabulary}.
Arguments _fitted {Vocabulary}.
Arguments _corpus {Vocabulary}.
Arguments EmbeddingEngine_init {Vocabulary}.
Arguments mkWrapper {Vocabulary}.
Arguments embedding_engine {Vocabulary}.
Arguments _ensure_fitted {Vocabulary}.
Arguments _encode_text {Vocabulary}.
Arguments transform_row {Vocabulary}.
Arguments embed_profile {Vocabulary}.
Arguments embed_project {Vocabulary}.
Arguments embed_teammate_request {Vocabulary}.
Arguments ensure_embedding {Vocabulary}.
Arguments run_call {Vocabulary}.
Arguments run_calls {Vocabulary}.
Arguments engine_ok {Vocabulary}.

(** ** Auxiliary definitions for the statements *)

Definition Qsum (l : list Q) : Q := foldr Qplus 0 l.

(** [d | {key: v}] for the keys the statements vary *)
Definition with_skills (v : option (list string)) (d : Dict) : Dict :=
  {| d_id := d_id d;
     d_roles := d_roles d;
     d_skills := v;
     d_skills_by_category := d_skills_by_category d;
     d_experience_years := d_experience_years d;
     d_hackathons := d_hackathons d;
     d_bio := d_bio d;
     d_interests := d_interests d;
     d_project_types := d_project_types d;
     d_timezone := d_timezone d;
     d_embedding := d_embedding d;
     d_title := d_title d;
     d_description := d_description d;
     d_required_roles := d_required_roles d;
     d_required_skills := d_required_skills d;
     d_min_experience := d_min_experience d;
     d_max_experience := d_max_experience d;
     d_project_type := d_project_type d;
     d_project_idea := d_project_idea d;
     d_looking_for_roles := d_looking_for_roles d;
     d_looking_for_skills := d_looking_for_skills d |}.

Definition with_required_skills (v : option (list string)) (d : Dict) : Dict :=
  {| d_id := d_id d;
     d_roles := d_roles d;
     d_skills := d_skills d;
     d_skills_by_category := d_skills_by_category d;
     d_experience_years := d_experience_years d;
     d_hackathons := d_hackathons d;
     d_bio := d_bio d;
     d_interests := d_interests d;
     d_project_types := d_project_types d;
     d_timezone := d_timezone d;
     d_embedding := d_embedding d;
     d_title := d_title d;
     d_description := d_description d;
     d_required_roles := d_required_roles d;
     d_required_skills := v;
     d_min_experience := d_min_experience d;
     d_max_experience := d_max_experience d;
     d_project_type := d_project_type d;
     d_project_idea := d_project_idea d;
     d_looking_for_roles := d_looking_for_roles d;
     d_looking_for_skills := d_looking_for_skills d |}.

Definition with_roles (v : option (list string)) (d : Dict) : Dict :=
  {| d_id := d_id d;
     d_roles := v;
     d_skills := d_skills d;
     d_skills_by_category := d_skills_by_category d;
     d_experience_years := d_experience_years d;
     d_hackathons := d_hackathons d;
     d_bio := d_bio d;
     d_interests := d_interests d;
     d_project_types := d_project_types d;
     d_timezone := d_timezone d;
     d_embedding := d_embedding d;
     d_title := d_title d;
     d_description := d_description d;
     d_required_roles := d_required_roles d;
     d_required_skills := d_required_skills d;
     d_min_experience := d_min_experience d;
     d_max_experience := d_max_experience d;
     d_project_type := d_project_type d;
     d_project_idea := d_project_idea d;
     d_looking_for_roles := d_looking_for_roles d;
     d_looking_for_skills := d_looking_for_skills d |}.

Definition with_required_roles (v : option (list string)) (d : Dict) : Dict :=
  {| d_id := d_id d;
     d_roles := d_roles d;
     d_skills := d_skills d;
     d_skills_by_category := d_skills_by_category d;
     d_experience_years := d_experience_years d;
     d_hackathons := d_hackathons d;
     d_bio := d_bio d;
     d_interests := d_interests d;
     d_project_types := d_project_types d;
     d_timezone := d_timezone d;
     d_embedding := d_embedding d;
     d_title := d_title d;
     d_description := d_description d;
     d_required_roles := v;
     d_required_skills := d_required_skills d;
     d_min_experience := d_min_experience d;
     d_max_experience := d_max_experience d;
     d_project_type := d_project_type d;
     d_project_idea := d_project_idea d;
     d_looking_for_roles := d_looking_for_roles d;
     d_looking_for_skills := d_looking_for_skills d |}.

Definition with_embedding (v : option (list Q)) (d : Dict) : Dict :=
  {| d_id := d_id d;
     d_roles := d_roles d;
     d_skills := d_skills d;
     d_skills_by_category := d_skills_by_category d;
     d_experience_years := d_experience_years d;
     d_hackathons := d_hackathons d;
     d_bio := d_bio d;
     d_interests := d_interests d;
     d_project_types := d_project_types d;
     d_timezone := d_timezone d;
     d_embedding := v;
     d_title := d_title d;
     d_description := d_description d;
     d_required_roles := d_required_roles d;
     d_required_skills := d_required_skills d;
     d_min_experience := d_min_experience d;
     d_max_experience := d_max_experience d;
     d_project_type := d_project_type d;
     d_project_idea := d_project_idea d;
     d_looking_for_roles := d_looking_for_roles d;
     d_looking_for_skills := d_looking_for_skills d |}.

Definition with_experience_years (v : option pyval) (d : Dict) : Dict :=
  {| d_id := d_id d;
     d_roles := d_roles d;
     d_skills := d_skills d;
     d_skills_by_category := d_skills_by_category d;
     d_experience_years := v;
     d_hackathons := d_hackathons d;
     d_bio := d_bio d;
     d_interests := d_interests d;
     d_project_types := d_project_types d;
     d_timezone := d_timezone d;
     d_embedding := d_embedding d;
     d_title := d_title d;
     d_description := d_description d;
     d_required_roles := d_required_roles d;
     d_required_skills := d_required_skills d;
     d_min_experience := d_min_experience d;
     d_max_experience := d_max_experience d;
     d_project_type := d_project_type d;
     d_project_idea := d_project_idea d;
     d_looking_for_roles := d_looking_for_roles d;
     d_looking_for_skills := d_looking_for_skills d |}.

Definition with_id (v : option pyval) (d : Dict) : Dict :=
  {| d_id := v;
     d_roles := d_roles d;
     d_skills := d_skills d;
     d_skills_by_category := d_skills_by_category d;
     d_experience_years := d_experience_years d;
     d_hackathons := d_hackathons d;
     d_bio := d_bio d;
     d_interests := d_interests d;
     d_project_types := d_project_types d;
     d_timezone := d_timezone d;
     d_embedding := d_embedding d;
     d_title := d_title d;
     d_description := d_description d;
     d_required_roles := d_required_roles d;
     d_required_skills := d_required_skills d;
     d_min_experience := d_min_experience d;
     d_max_experience := d_max_experience d;
     d_project_type := d_project_type d;
     d_project_idea := d_project_idea d;
     d_looking_for_roles := d_looking_for_roles d;
     d_looking_for_skills := d_looking_for_skills d |}.

(** The order of the ranking: [a] may stand before [b] when its score is
    higher, or when the scores are equal and it shares at least as many
    skills. *)
Definition ranks_before (a b : Match) : Prop :=
  score b < score a
  ∨ (score a == score b
     ∧ (length (shared_skills b) <= length (shared_skills a))%nat).

(** The matches of the candidates whose scoring returns, in batch order *)
Definition scored (cosine_similarity : list Q → list Q → result Q)
    (candidates : list Dict) (project_data : Dict) : list Match :=
  omap (λ c, match match_user_to_project cosine_similarity c project_data with
             | Ok m => Some m
             | Raise _ => None
             end) candidates.

(** A list enumerates a set in ascending order, without repetition. *)
Definition sorted_listing (l : list string) (S : gset string) : Prop :=
  StronglySorted String.le l ∧ NoDup l ∧ ∀ k, k ∈ l ↔ k ∈ S.

(** The normalized keys of a skill list, as a set *)
Definition normalized_keys (skills : list string) : gset string :=
  list_to_set (normalize_skill <$> skills).

(** *** Stand-ins for scikit-learn, to run the model on examples *)

(** A similarity that tells equal vectors from different ones and raises
    on vectors of different lengths. *)
Definition example_cosine (v1 v2 : list Q) : result Q :=
  if negb (length v1 =? length v2)%nat then Raise ValueError
  else if forallb (λ p, Qeq_bool (fst p) (snd p)) (zip v1 v2) then Ok 1
  else Ok (1 # 2).

(** A bag-of-words vectorizer: the vocabulary is the list of distinct words
    of the corpus, a row counts the occurrences of each of them. *)
Definition example_fit (texts : list string) : result (list string) :=
  match remove_dups (texts ≫= String.words) with
  | [] => Raise ValueError
  | w :: ws => Ok (w :: ws)
  end.

Definition example_transform (vocabulary : list string) (text : string) : list Q :=
  (λ w, Qlen (filter (λ x, x = w) (String.words text))) <$> vocabulary.

(** *** Sample records *)

Definition sample_user : Dict :=
  with_roles (Some ["Backend"])
    (with_skills (Some ["python"; "react"])
       (with_experience_years (Some (PyInt 3)) empty_dict)).

Definition sample_project : Dict :=
  with_id (Some (PyInt 7))
    (with_required_roles (Some ["backend"; "frontend"])
       (with_required_skills (Some ["python"; "django"; "react"]) empty_dict)).

(** A candidate whose [experience_years] is not a number *)
Definition malformed_user : Dict :=
  with_experience_years (Some (PyStr "five")) sample_user.

(** A user with six skills, all of them required, and the same embedding
    and timezone as the project *)
Definition strong_user : Dict :=
  with_embedding (Some [1; 0])
    (with_skills (Some ["a"; "b"; "c"; "d"; "e"; "f"]) empty_dict).

Definition strong_project : Dict :=
  with_embedding (Some [1; 0])
    (with_required_skills (Some ["a"; "b"; "c"; "d"; "e"; "f"]) empty_dict).

(** A project that carries both fields: [skills] decides. *)
Definition both_fields_project : Dict :=
  with_skills (Some ["react"]) sample_project.

(** A record that already carries an embedding *)
Definition embedded_user : Dict :=
  with_embedding (Some (replicate 384 (1 # 2))) sample_user.

(** The three matches of the ranking scenario: scores 0.9, 0.9 and 0.5
    with 2, 5 and 10 shared skills. *)
Definition ranking_m1 : Match :=
  mkMatch "1" (9 # 10) [] (replicate 2 "s") [].
Definition ranking_m2 : Match :=
  mkMatch "2" (9 # 10) [] (replicate 5 "s") [].
Definition ranking_m3 : Match :=
  mkMatch "3" (5 # 10) [] (replicate 10 "s") [].

(** ** Auxiliary definitions for the further properties *)

(** Every character of a string passes a test. *)
Fixpoint string_forall (p : ascii → bool) (s : string) : bool :=
  match s with
  | EmptyString => true
  | String c s' => p c && string_forall p s'
  end.

(** An ASCII capital letter *)
Definition is_upper (c : ascii) : bool :=
  let n := N_of_ascii c in ((65 <=? n) && (n <=? 90))%N.

(** One of the four characters [normalize_skill] deletes *)
Definition is_separator (c : ascii) : bool :=
  Ascii.eqb c "." || Ascii.eqb c " " || Ascii.eqb c "-" || Ascii.eqb c "_".

(** Whitespace other than the space itself: tab, line breaks, 28-31 *)
Definition is_odd_space (c : ascii) : bool :=
  py_isspace c && negb (Ascii.eqb c " ").

(** Two matches with the same sort key *)
Definition same_key (a b : Match) : bool :=
  negb (key_ltb (sort_key a) (sort_key b))
  && negb (key_ltb (sort_key b) (sort_key a)).

(** A similarity that is 0 throughout *)
Definition zero_cosine (v1 v2 : list Q) : result Q := Ok 0.

(** The vocabulary of the first text of a list that can be fitted alone *)
Fixpoint first_fit {Vocabulary : Type} (fit : list string → result Vocabulary)
    (texts : list string) : option Vocabulary :=
  match texts with
  | [] => None
  | text :: rest =>
      match fit [text] with
      | Ok v => Some v
      | Raise _ => first_fit fit rest
      end
  end.

(** The arguments [match_user_to_project] passes on, lines 131-164 *)
Definition proj_skills_of (project_data : Dict) : list string :=
  py_or_list (d_skills project_data)
    (py_or_list (d_required_skills project_data) []).

Definition user_skills_of (user_data : Dict) : list string :=
  py_or_list (d_skills user_data) [].

Definition experience_fit_of (user_data project_data : Dict) : result Q :=
  calculate_experience_fit
    (default (PyInt 0) (d_experience_years user_data))
    (default (PyInt 0) (d_min_experience project_data))
    (default (PyInt 10) (d_max_experience project_data)).

Definition embedding_score_of (cosine_similarity : list Q → list Q → result Q)
    (user_data project_data : Dict) : result Q :=
  match d_embedding user_data, d_embedding project_data with
  | Some _, Some _ =>
      calculate_embedding_score cosine_similarity
        (d_embedding user_data) (d_embedding project_data)
  | _, _ => Ok 0
  end.

Definition role_match_of (user_data project_data : Dict) : Q * list string :=
  calculate_role_match (d_roles user_data)
    (py_or (d_required_roles project_data) (d_roles project_data)).

Definition availability_of (user_data project_data : Dict) : Q :=
  calculate_availability_score (d_timezone user_data) (d_timezone project_data).


(** The same user with an embedding of another length than the project's *)
Definition mismatched_user : Dict := with_embedding (Some [1]) strong_user.

(** A project that lists one skill in three spellings *)
Definition repeated_project : Dict :=
  with_required_skills (Some ["React"; "react"; "REACT"; "go"; "sql"; "rust"]) empty_dict.

(** The skills [normalize_skills] is given, flattened *)
Definition skills_of_arg (skills : skills_arg) : list string :=
  match skills with
  | SkillList l => l
  | SkillDict cats => concat (snd <$> cats)
  end.

(** What [create_project_text] needs of the experience bounds to return *)
Definition project_bounds_defined (project_data : Dict) : Prop :=
  ∃ mn, default (PyInt 0) (d_min_experience project_data) = PyInt mn
        ∧ ((0 < mn)%Z
           ∨ ∃ mx, default (PyInt 10) (d_max_experience project_data) = PyInt mx).

(** A project whose [min_experience] is stored as NULL *)
Definition null_bounds_project : Dict :=
  {| d_id := None;
     d_roles := None;
     d_skills := None;
     d_skills_by_category := None;
     d_experience_years := None;
     d_hackathons := None;
     d_bio := None;
     d_interests := None;
     d_project_types := None;
     d_timezone := None;
     d_embedding := None;
     d_title := Some "Untitled";
     d_description := None;
     d_required_roles := None;
     d_required_skills := None;
     d_min_experience := Some PyNone;
     d_max_experience := None;
     d_project_type := None;
     d_project_idea := None;
     d_looking_for_roles := None;
     d_looking_for_skills := None |}.

(** ** The callers in [app/api/routes]

    The routes build the dicts they pass to the engine from values they
    have already read and parsed; the definitions below are those dict
    literals and the calls made on them, with the parsed values as
    arguments. *)







(** The dict that [create_project] embeds, projects.py lines 107-111 *)
Definition create_project_dict (title : string) (description : option string)
    (required_skills : option (list string)) : Dict :=
  {| d_id := None;
     d_roles := None;
     d_skills := None;
     d_skills_by_category := None;
     d_experience_years := None;
     d_hackathons := None;
     d_bio := None;
     d_interests := None;
     d_project_types := None;
     d_timezone := None;
     d_embedding := None;
     d_title := Some title;
     d_description := description;
     d_required_roles := None;
     d_required_skills := Some (py_or_list required_skills []);
     d_min_experience := None;
     d_max_experience := None;
     d_project_type := None;
     d_project_idea := None;
     d_looking_for_roles := None;
     d_looking_for_skills := None |}.

(** The embedding of a new project, projects.py lines 104-114: a new
    engine embeds the title, the description and the required skills;
    [None] when that raises or yields an empty list. *)
Definition create_project_embedding {Vocabulary : Type}
    (fit : list string → result Vocabulary)
    (transform : Vocabulary → string → list Q)
    (title : string) (description : option string)
    (required_skills : option (list string)) : result (option (list Q)) :=
  let embedder := EmbeddingEngine_init in
  try_except
    (emb ← fst (embed_project fit transform embedder
                  (create_project_dict title description required_skills));
     Ok (match emb with
         | x :: l => Some (x :: l)
         | [] => None
         end))
    (λ _, Ok None).

(** * Properties *)

(** ** The result monad *)

Lemma bind_Ok {A B} (m : result A) (f : A → result B) (b : B) :
  m ≫= f = Ok b ↔ ∃ a, m = Ok a ∧ f a = Ok b.
Proof.
  destruct m as [a|e]; simpl.
  - split; [intros H; exists a; auto | intros (a' & [= <-] & H); exact H].
  - split; [discriminate | intros (a' & [=] & _)].
Qed.

Lemma bind_Raise {A B} (m : result A) (f : A → result B) (e : exn) :
  m = Raise e → m ≫= f = Raise e.
Proof. intros ->. reflexivity. Qed.


Ltac inv_bind H :=
  let a := fresh "a" in
  let Ha := fresh "Ha" in
  apply bind_Ok in H as (a & Ha & H).

(** ** Weights *)

Lemma weighted_sum_applied (s e r x a : Q) :
  weighted_sum s e r x a == Qsum (zip_with Qmult [s; e; r; x; a] applied_weights).
Proof. unfold weighted_sum, applied_weights, Qsum; simpl. ring. Qed.

(** C2, as stated, fails: the five weights that [match_user_to_project]
    applies do not sum to 1. *)
Lemma applied_weights_sum_not_one : ¬ (Qsum applied_weights == 1).
Proof. vm_compute. discriminate. Qed.

(** C2, amended: the final score of [match_user_to_project] weights its
    five sub-scores with [applied_weights], which sum to 0.95; the [WEIGHTS]
    table sums to 1.0 only together with its entry [hackathon_bonus] = 0.05,
    which no sub-score is multiplied with. *)
Theorem applied_weights_sum :
  (∀ s e r x a : Q,
      weighted_sum s e r x a
      == Qsum (zip_with Qmult [s; e; r; x; a] applied_weights))
  ∧ Qsum applied_weights == 95 # 100
  ∧ Qsum (snd <$> WEIGHTS.table) == 1
  ∧ Qsum applied_weights + WEIGHTS.hackathon_bonus == Qsum (snd <$> WEIGHTS.table).
Proof.
  split; [exact weighted_sum_applied|].
  repeat split; vm_compute; reflexivity.
Qed.

(** ** Experience fit *)







(** ** Skill overlap *)

Lemma py_sorted_listing (S : gset string) : sorted_listing (py_sorted S) S.
Proof.
  unfold sorted_listing, py_sorted. split; [|split].
  - apply StronglySorted_merge_sort; apply _.
  - rewrite merge_sort_Permutation. apply NoDup_elements.
  - intros k. rewrite merge_sort_Permutation. apply elem_of_elements.
Qed.

Lemma py_sorted_length (S : gset string) : length (py_sorted S) = size S.
Proof. unfold py_sorted. rewrite merge_sort_Permutation. reflexivity. Qed.

Lemma skill_dict_acc_dom (m : gmap string string) (l : list string) :
  dom (foldl (λ m s, <[normalize_skill s := s]> m) m l)
  = dom m ∪ list_to_set (normalize_skill <$> l).
Proof.
  revert m. induction l as [|x l IH]; intros m; simpl.
  - set_solver.
  - rewrite IH, dom_insert_L. set_solver.
Qed.

Lemma skill_dict_dom (l : list string) :
  dom (skill_dict l) = list_to_set (normalize_skill <$> l).
Proof. unfold skill_dict. rewrite skill_dict_acc_dom, dom_empty_L. set_solver. Qed.

Lemma skill_dict_acc_lookup (m : gmap string string) (l : list string) (k s : string) :
  foldl (λ m s, <[normalize_skill s := s]> m) m l !! k = Some s →
  (s ∈ l ∧ normalize_skill s = k) ∨ m !! k = Some s.
Proof.
  revert m. induction l as [|x l IH]; intros m; simpl; [auto|].
  intros H. apply IH in H as [[H1 H2]|H].
  - left. split; [by right | done].
  - destruct (decide (normalize_skill x = k)) as [<-|Hne].
    + rewrite lookup_insert_eq in H. injection H as <-. left. split; [by left | done].
    + rewrite lookup_insert_ne in H by done. by right.
Qed.

(** The spelling stored under a key is one of the listed skills, and the
    key is its normal form. *)
Lemma skill_dict_lookup (l : list string) (k s : string) :
  skill_dict l !! k = Some s → s ∈ l ∧ normalize_skill s = k.
Proof.
  intros H. apply skill_dict_acc_lookup in H as [H|H]; [done|].
  by rewrite lookup_empty in H.
Qed.

Lemma skill_dict_empty_iff (l : list string) : skill_dict l = ∅ ↔ l = [].
Proof.
  split; [|by intros ->].
  intros H. destruct l as [|x l]; [done|].
  assert (Hd : normalize_skill x ∈ dom (skill_dict (x :: l))).
  { rewrite skill_dict_dom. set_solver. }
  rewrite H, dom_empty_L in Hd. set_solver.
Qed.

(** Reading the spellings of keys that are all present never raises. *)
Lemma mapM_getitem (l ks : list string) :
  (∀ k, k ∈ ks → k ∈ dom (skill_dict l)) →
  ∃ vs, mapM (dict_getitem (skill_dict l)) ks = Ok vs
        ∧ normalize_skill <$> vs = ks
        ∧ Forall (λ s, s ∈ l) vs.
Proof.
  induction ks as [|k ks IH]; intros Hin; simpl.
  - exists []. by repeat split.
  - destruct IH as (vs & Hvs & Hn & Hf); [intros; apply Hin; by right|].
    assert (Hk : k ∈ dom (skill_dict l)) by (apply Hin; by left).
    apply elem_of_dom in Hk as [s Hs].
    exists (s :: vs).
    assert (Hg : dict_getitem (skill_dict l) k = Ok s)
      by (unfold dict_getitem; by rewrite Hs).
    apply skill_dict_lookup in Hs as [Hs1 Hs2].
    split; [rewrite Hg; simpl; rewrite Hvs; reflexivity|].
    split; [|by constructor].
    rewrite fmap_cons. by rewrite Hs2, Hn.
Qed.

(** C1: [calculate_skill_overlap] returns 0.5 and two empty lists when
    nothing is required; otherwise [shared] lists, by normalized key and in
    the target's spelling, the keys on both sides, [complementary] the
    required keys the candidate lacks, and the score is
    [min(|shared| / |required keys| + min(|user-only keys| * 0.05, 0.2), 1)].
    For python, react against python, django, react: shared is python and
    react, complementary is django, and the score is 2/3. *)
Theorem skill_overlap_spec :
  (∀ user_skills required_skills : list string,
     (required_skills = [] →
        calculate_skill_overlap user_skills required_skills = Ok (1 # 2, [], []))
     ∧ (required_skills ≠ [] →
        ∃ score shared complementary,
          calculate_skill_overlap user_skills required_skills
          = Ok (score, shared, complementary)
          ∧ sorted_listing (normalize_skill <$> shared)
              (normalized_keys user_skills ∩ normalized_keys required_skills)
          ∧ Forall (λ s, s ∈ required_skills) shared
          ∧ sorted_listing (normalize_skill <$> complementary)
              (normalized_keys required_skills ∖ normalized_keys user_skills)
          ∧ Forall (λ s, s ∈ required_skills) complementary
          ∧ score
            == Qmin (Qsize (normalized_keys user_skills ∩ normalized_keys required_skills)
                       / Qsize (normalized_keys required_skills)
                     + Qmin (Qsize (normalized_keys user_skills
                                      ∖ normalized_keys required_skills) * (5 # 100))
                            (2 # 10))
                    1))
  ∧ (∃ score,
       calculate_skill_overlap ["python"; "react"] ["python"; "django"; "react"]
       = Ok (score, ["python"; "react"], ["django"])
       ∧ score == 2 # 3).
Proof.
  split.
  - intros user_skills required_skills. split.
    + intros ->. reflexivity.
    + intros Hne. unfold calculate_skill_overlap.
      destruct (decide (required_skills = [])) as [|_]; [done|].
      destruct (mapM_getitem required_skills
                  (py_sorted (dom (skill_dict user_skills) ∩ dom (skill_dict required_skills))))
        as (shared & Hs & Hsn & Hsf).
      { intros k Hk. apply py_sorted_listing in Hk. set_solver. }
      destruct (mapM_getitem required_skills
                  (py_sorted (dom (skill_dict required_skills) ∖ dom (skill_dict user_skills))))
        as (comp & Hc & Hcn & Hcf).
      { intros k Hk. apply py_sorted_listing in Hk. set_solver. }
      rewrite Hs. simpl. rewrite Hc. simpl.
      destruct (decide (skill_dict required_skills = ∅)) as [He|_].
      { by apply skill_dict_empty_iff in He. }
      do 3 eexists. split; [reflexivity|].
      rewrite Hsn, Hcn, !skill_dict_dom. unfold normalized_keys.
      repeat split; try apply py_sorted_listing; try done.
  - eexists. split; [vm_compute; reflexivity|]. vm_compute. reflexivity.
Qed.

Lemma skill_overlap_spec_witness :
  ∃ score shared complementary,
    calculate_skill_overlap ["Python"; "React.js"; "go"] ["python"; "Django"; "react-js"]
    = Ok (score, shared, complementary)
    ∧ Forall (λ s, s ∈ ["python"; "Django"; "react-js"]) shared
    ∧ Forall (λ s, s ∈ ["python"; "Django"; "react-js"]) complementary.
Proof.
  destruct skill_overlap_spec as [H _].
  destruct (proj2 (H ["Python"; "React.js"; "go"] ["python"; "Django"; "react-js"]))
    as (score & shared & comp & Heq & _ & Hs & _ & Hc & _); [discriminate|].
  exists score, shared, comp. auto.
Defined.

Example skill_overlap_spelling :
  calculate_skill_overlap ["Python"; "React.js"; "go"] ["python"; "Django"; "react-js"]
  = Ok (Qmin ((2 # 1) / (3 # 1) + Qmin ((1 # 1) * (5 # 100)) (2 # 10)) 1,
        ["python"; "react-js"], ["Django"]).
Proof. vm_compute. reflexivity. Qed.

Example normalize_skill_ex1 : normalize_skill " React.JS " = "reactjs".
Proof. reflexivity. Qed.

Example normalize_skill_ex2 : normalize_skill "Scikit-Learn_2" = "scikitlearn2".
Proof. reflexivity. Qed.

(** [calculate_skill_overlap] never raises. *)
Lemma calculate_skill_overlap_returns (user_skills required_skills : list string) :
  ∃ r, calculate_skill_overlap user_skills required_skills = Ok r.
Proof.
  destruct required_skills as [|x l] eqn:E; [by eexists|].
  unfold calculate_skill_overlap.
  destruct (decide (x :: l = [])) as [|_]; [done|].
  destruct (mapM_getitem (x :: l)
              (py_sorted (dom (skill_dict user_skills) ∩ dom (skill_dict (x :: l)))))
    as (shared & Hs & _).
  { intros k Hk. apply py_sorted_listing in Hk. set_solver. }
  destruct (mapM_getitem (x :: l)
              (py_sorted (dom (skill_dict (x :: l)) ∖ dom (skill_dict user_skills))))
    as (comp & Hc & _).
  { intros k Hk. apply py_sorted_listing in Hk. set_solver. }
  rewrite Hs. simpl. rewrite Hc. simpl. by eexists.
Qed.

(** ** The final score *)






Example strong_match_unclamped :
  weighted_sum 1 1 1 1 1 + Qmin (Qlen ["a"; "b"; "c"; "d"; "e"; "f"] * (2 # 100)) (12 # 100)
  == 107 # 100.
Proof. vm_compute. reflexivity. Qed.

Example strong_match_score :
  score <$> (match match_user_to_project example_cosine strong_user strong_project with
             | Ok m => Some m | Raise _ => None end) = Some 1.
Proof. vm_compute. reflexivity. Qed.

(** ** Ranking *)

Lemma key_ltb_true (a b : Match) :
  key_ltb (sort_key a) (sort_key b) = true ↔
  score a < score b
  ∨ (score a == score b ∧ (length (shared_skills a) < length (shared_skills b))%nat).
Proof.
  unfold key_ltb, sort_key; simpl.
  destruct (Qcompare_spec (score a) (score b)) as [He|Hl|Hg].
  - rewrite Nat.ltb_lt. split; [auto|]. intros [H|[_ H]]; [lra | exact H].
  - split; auto.
  - split; [discriminate|]. intros [H|[H _]]; lra.
Qed.

(** The code's key comparison decides the order of the ranking. *)
Lemma key_ltb_false (a b : Match) :
  key_ltb (sort_key a) (sort_key b) = false ↔ ranks_before a b.
Proof.
  unfold key_ltb, sort_key, ranks_before; simpl.
  destruct (Qcompare_spec (score a) (score b)) as [He|Hl|Hg].
  - rewrite Nat.ltb_ge. split; [auto|]. intros [H|[_ H]]; [lra | exact H].
  - split; [discriminate|]. intros [H|[H _]]; lra.
  - split; auto.
Qed.

Lemma ranks_before_trans (a b c : Match) :
  ranks_before a b → ranks_before b c → ranks_before a c.
Proof.
  unfold ranks_before. intros [H1|[H1 H1']] [H2|[H2 H2']].
  - left. lra.
  - left. lra.
  - left. lra.
  - right. split; [lra | lia].
Qed.

Lemma ranks_before_total (a b : Match) : ranks_before a b ∨ ranks_before b a.
Proof.
  unfold ranks_before.
  destruct (Qcompare_spec (score a) (score b)) as [He|Hl|Hg]; auto.
  destruct (Nat.le_ge_cases (length (shared_skills a)) (length (shared_skills b))).
  - right. right. split; [lra | lia].
  - left. right. split; [lra | lia].
Qed.

Lemma key_ltb_ranks_before (a b : Match) :
  key_ltb (sort_key a) (sort_key b) = true → ranks_before b a.
Proof.
  rewrite key_ltb_true. unfold ranks_before.
  intros [H|[H1 H2]]; [by left | right; split; [lra | lia]].
Qed.

Lemma insert_desc_perm (m : Match) (l : list Match) : insert_desc m l ≡ₚ m :: l.
Proof.
  induction l as [|y l IH]; simpl; [done|].
  destruct (key_ltb _ _); [|done].
  rewrite IH. apply Permutation_swap.
Qed.

Lemma sort_matches_perm (l : list Match) : sort_matches l ≡ₚ l.
Proof.
  induction l as [|m l IH]; simpl; [done|].
  unfold sort_matches in *. simpl. by rewrite insert_desc_perm, IH.
Qed.

Lemma insert_desc_sorted (m : Match) (l : list Match) :
  StronglySorted ranks_before l → StronglySorted ranks_before (insert_desc m l).
Proof.
  induction 1 as [|y l Hs IH Hy]; simpl.
  - repeat constructor.
  - destruct (key_ltb (sort_key m) (sort_key y)) eqn:E.
    + constructor; [exact IH|].
      rewrite insert_desc_perm. constructor; [|exact Hy].
      by apply key_ltb_ranks_before.
    + apply key_ltb_false in E. constructor; [by constructor|].
      constructor; [exact E|].
      eapply Forall_impl; [exact Hy|]. intros z Hz.
      eapply ranks_before_trans; eauto.
Qed.

Lemma sort_matches_sorted (l : list Match) :
  StronglySorted ranks_before (sort_matches l).
Proof.
  induction l as [|m l IH]; [constructor|].
  unfold sort_matches in *. simpl. by apply insert_desc_sorted.
Qed.

(** The sort is stable: a list that is already in ranking order, ties
    included, comes back as it is. *)
Lemma sort_matches_stable (l : list Match) :
  StronglySorted ranks_before l → sort_matches l = l.
Proof.
  induction 1 as [|m l Hs IH Hm]; [reflexivity|].
  unfold sort_matches in *. simpl. rewrite IH.
  destruct l as [|y l']; [reflexivity|]. simpl.
  apply Forall_cons in Hm as [Hy _]. apply key_ltb_false in Hy.
  by rewrite Hy.
Qed.

Lemma take_sorted (n : nat) (l : list Match) :
  StronglySorted ranks_before l → StronglySorted ranks_before (take n l).
Proof.
  intros H. rewrite <- (take_drop n l) in H.
  by apply StronglySorted_app_1_l in H.
Qed.

(** The loop keeps the matches of the candidates it could score. *)
Lemma rank_loop_scored cosine (project_data : Dict) (candidates : list Dict)
    (matches : list Match) :
  rank_loop cosine project_data candidates matches
  = Ok (matches ++ scored cosine candidates project_data).
Proof.
  revert matches. induction candidates as [|c cs IH]; intros matches; simpl.
  - by rewrite app_nil_r.
  - unfold rank_step, scored. simpl.
    destruct (match_user_to_project cosine c project_data) as [m|e]; simpl.
    + rewrite IH. by rewrite <- app_assoc.
    + apply IH.
Qed.

Lemma rank_candidates_eq cosine (candidates : list Dict) (project_data : Dict) (top_k : Z) :
  rank_candidates cosine candidates project_data top_k
  = Ok (py_slice_to (sort_matches (scored cosine candidates project_data)) top_k).
Proof. unfold rank_candidates. by rewrite rank_loop_scored. Qed.

Lemma scored_app cosine (l1 l2 : list Dict) (project_data : Dict) :
  scored cosine (l1 ++ l2) project_data
  = scored cosine l1 project_data ++ scored cosine l2 project_data.
Proof. unfold scored. apply omap_app. Qed.

(** C4, as stated, fails for a negative [top_k]: [matches[:-1]] drops the
    last match only, so two candidates leave one entry, which is more than
    [top_k]. *)
Lemma rank_candidates_negative_top_k :
  ∃ ranked,
    rank_candidates example_cosine [sample_user; strong_user] sample_project (-1)
    = Ok ranked
    ∧ length ranked = 1%nat
    ∧ ¬ (Z.of_nat (length ranked) <= -1)%Z.
Proof.
  eexists. split; [vm_compute; reflexivity|]. split; [reflexivity|].
  simpl. lia.
Qed.

(** C4, amended: for every list of candidates, target and non-negative
    [top_k], [rank_candidates] returns the matches of the candidates it
    could score, sorted by descending score and, among equal scores, by
    descending number of shared skills, cut to the first [top_k] entries;
    for a negative [top_k] the cut drops the last [-top_k] entries
    instead.  Matches with scores 0.9, 0.9, 0.5 and 2, 5, 10 shared skills
    come out as: 0.9 with 5, 0.9 with 2, 0.5. *)
Theorem rank_candidates_spec :
  (∀ cosine (candidates : list Dict) (project_data : Dict) (top_k : Z),
     (0 <= top_k)%Z →
     let sorted := sort_matches (scored cosine candidates project_data) in
     sorted ≡ₚ scored cosine candidates project_data
     ∧ StronglySorted ranks_before sorted
     ∧ rank_candidates cosine candidates project_data top_k
       = Ok (take (Z.to_nat top_k) sorted)
     ∧ StronglySorted ranks_before (take (Z.to_nat top_k) sorted)
     ∧ (Z.of_nat (length (take (Z.to_nat top_k) sorted)) <= top_k)%Z)
  ∧ (∀ cosine (candidates : list Dict) (project_data : Dict) (top_k : Z),
       (top_k < 0)%Z →
       let sorted := sort_matches (scored cosine candidates project_data) in
       rank_candidates cosine candidates project_data top_k
       = Ok (take (length sorted - Z.to_nat (- top_k)) sorted))
  ∧ sort_matches [ranking_m1; ranking_m2; ranking_m3]
    = [ranking_m2; ranking_m1; ranking_m3].
Proof.
  split; [|split].
  - intros cosine candidates project_data top_k Hk sorted.
    split; [apply sort_matches_perm|].
    split; [apply sort_matches_sorted|].
    split.
    { rewrite rank_candidates_eq. unfold py_slice_to.
      destruct (Z.leb_spec 0 top_k); [reflexivity | lia]. }
    split; [apply take_sorted, sort_matches_sorted|].
    rewrite length_take. lia.
  - intros cosine candidates project_data top_k Hk sorted.
    rewrite rank_candidates_eq. unfold py_slice_to.
    destruct (Z.leb_spec 0 top_k); [lia | reflexivity].
  - vm_compute. reflexivity.
Qed.

Lemma rank_candidates_spec_witness :
  rank_candidates example_cosine [sample_user; malformed_user; strong_user]
    sample_project 1
  = Ok (take 1 (sort_matches
                  (scored example_cosine [sample_user; malformed_user; strong_user]
                     sample_project))).
Proof.
  destruct rank_candidates_spec as [H _].
  apply (H example_cosine [sample_user; malformed_user; strong_user] sample_project 1%Z).
  lia.
Defined.

(** C8: [rank_candidates] never raises; a candidate whose scoring raises
    is left out, and the candidates around it are scored and ranked as if
    it had not been in the batch. *)
Theorem rank_candidates_skips_failed cosine (before after : list Dict)
    (failed project_data : Dict) (top_k : Z) (e : exn) :
  match_user_to_project cosine failed project_data = Raise e →
  scored cosine (before ++ failed :: after) project_data
  = scored cosine before project_data ++ scored cosine after project_data
  ∧ rank_candidates cosine (before ++ failed :: after) project_data top_k
    = Ok (py_slice_to
            (sort_matches (scored cosine before project_data
                             ++ scored cosine after project_data)) top_k)
  ∧ rank_candidates cosine (before ++ failed :: after) project_data top_k
    = rank_candidates cosine (before ++ after) project_data top_k.
Proof.
  intros Hfail.
  assert (Hs : scored cosine (before ++ failed :: after) project_data
               = scored cosine before project_data ++ scored cosine after project_data).
  { rewrite scored_app. f_equal. unfold scored at 1. simpl. by rewrite Hfail. }
  split; [exact Hs|].
  rewrite !rank_candidates_eq, Hs, scored_app. done.
Qed.

(** A batch of three candidates, the second with a non-numeric
    [experience_years]: its scoring raises a [TypeError], and the ranking
    holds the other two. *)
Lemma rank_candidates_skips_failed_witness :
  match_user_to_project example_cosine malformed_user sample_project = Raise TypeError
  ∧ rank_candidates example_cosine [sample_user; malformed_user; strong_user]
      sample_project 20
    = rank_candidates example_cosine [sample_user; strong_user] sample_project 20.
Proof.
  split; [vm_compute; reflexivity|].
  apply (rank_candidates_skips_failed example_cosine [sample_user] [strong_user]
           malformed_user sample_project 20 TypeError).
  vm_compute. reflexivity.
Defined.

Example rank_three_candidates :
  (λ m, (target_id m, shared_skills m))
  <$> default [] (match rank_candidates example_cosine
                         [sample_user; malformed_user; strong_user] sample_project 20 with
                  | Ok l => Some l | Raise _ => None end)
  = [("7", ["python"; "react"]); ("7", [])].
Proof. vm_compute. reflexivity. Qed.

(** Whatever the batch, the ranking returns. *)
Lemma rank_candidates_returns cosine (candidates : list Dict) (project_data : Dict)
    (top_k : Z) :
  ∃ ranked, rank_candidates cosine candidates project_data top_k = Ok ranked.
Proof. rewrite rank_candidates_eq. by eexists. Qed.

(** ** Which project fields are scored *)




Example both_fields_shared :
  shared_skills <$> (match match_user_to_project example_cosine sample_user
                             both_fields_project with
                     | Ok m => Some m | Raise _ => None end)
  = Some ["react"].
Proof. vm_compute. reflexivity. Qed.

(** ** The featurizer: fit once, then reuse *)

Section FeaturizerProperties.

Context {Vocabulary : Type}.
Variable fit : list string → result Vocabulary.
Variable transform : Vocabulary → string → list Q.

Abbreviation engine := (EmbeddingEngine Vocabulary).

Lemma init_ok : engine_ok (EmbeddingEngine_init : engine).
Proof. split; [reflexivity | discriminate]. Qed.

Lemma _ensure_fitted_ok (self : engine) (texts : list string) :
  engine_ok self → engine_ok (snd (_ensure_fitted fit self texts)).
Proof.
  intros [Hd Hv]. unfold _ensure_fitted.
  destruct (_fitted self) eqn:Hf; simpl; [split; auto|].
  destruct (fit texts) as [v|e]; simpl; (split; simpl; [exact Hd|]).
  - intros _. by exists v.
  - discriminate.
Qed.

Lemma _ensure_fitted_fitted (self : engine) (texts : list string) :
  _fitted self = true → _ensure_fitted fit self texts = (Ok tt, self).
Proof. intros Hf. unfold _ensure_fitted. by rewrite Hf. Qed.

Lemma _encode_text_ok (self : engine) (text : string) :
  engine_ok self → engine_ok (snd (_encode_text fit transform self text)).
Proof.
  intros Hok. unfold _encode_text.
  destruct (_fitted self) eqn:Hf.
  - simpl. exact Hok.
  - pose proof (_ensure_fitted_ok self [text] Hok) as Hok'.
    destruct (_ensure_fitted fit self [text]) as [[[]|e] self']; exact Hok'.
Qed.

(** On a fitted engine [_encode_text] transforms with the vocabulary it
    finds and leaves the engine as it is. *)
Lemma _encode_text_fitted (self : engine) (text : string) (v : Vocabulary) :
  _fitted self = true → vectorizer self = Some v →
  _encode_text fit transform self text
  = (Ok (fix_width (embedding_dim self) (transform v text)), self).
Proof.
  intros Hf Hv. unfold _encode_text, transform_row. rewrite Hf, Hv. reflexivity.
Qed.

Lemma run_call_ok (self : engine) (c : call) :
  engine_ok self → engine_ok (run_call fit transform self c).
Proof.
  intros Hok. destruct c as [texts|text|d|d|r]; simpl.
  - by apply _ensure_fitted_ok.
  - by apply _encode_text_ok.
  - unfold embed_profile. destruct (create_profile_text d); [|exact Hok].
    by apply _encode_text_ok.
  - unfold embed_project. destruct (create_project_text d); [|exact Hok].
    by apply _encode_text_ok.
  - by apply _encode_text_ok.
Qed.

Lemma run_calls_ok (self : engine) (cs : list call) :
  engine_ok self → engine_ok (run_calls fit transform self cs).
Proof.
  revert self. induction cs as [|c cs IH]; intros self Hok; [exact Hok|].
  simpl. apply IH. by apply run_call_ok.
Qed.

(** No call changes a fitted engine. *)
Lemma run_call_fitted (self : engine) (c : call) :
  engine_ok self → _fitted self = true → run_call fit transform self c = self.
Proof.
  intros [Hd Hv] Hf. destruct (Hv Hf) as [v Hvec].
  destruct c as [texts|text|d|d|r]; simpl.
  - by rewrite _ensure_fitted_fitted.
  - by rewrite (_encode_text_fitted self text v).
  - unfold embed_profile. destruct (create_profile_text d) as [text|e]; [|done].
    by rewrite (_encode_text_fitted self text v).
  - unfold embed_project. destruct (create_project_text d) as [text|e]; [|done].
    by rewrite (_encode_text_fitted self text v).
  - unfold embed_teammate_request.
    by rewrite (_encode_text_fitted self _ v).
Qed.

Lemma run_calls_fitted (self : engine) (cs : list call) :
  engine_ok self → _fitted self = true → run_calls fit transform self cs = self.
Proof.
  intros Hok Hf. induction cs as [|c cs IH]; [reflexivity|].
  simpl. rewrite run_call_fitted by done. exact IH.
Qed.

Lemma fix_width_length (dim : nat) (row : list Q) :
  length (fix_width dim row) = dim.
Proof.
  unfold fix_width. destruct (Nat.ltb_spec (length row) dim).
  - rewrite length_app, length_replicate. lia.
  - rewrite length_take. lia.
Qed.

(** C9: on an engine that some history of calls has fitted, embedding a
    text returns a vector and leaves the engine unchanged; whatever calls
    follow, the engine, its vocabulary included, stays the same, and
    embedding the same text again returns the same vector. *)
Theorem encode_deterministic_once_fitted (history later : list call) (text : string) :
  let self := run_calls fit transform EmbeddingEngine_init history in
  let self' := run_calls fit transform self later in
  _fitted self = true →
  self' = self
  ∧ vectorizer self' = vectorizer self
  ∧ _fitted self' = true
  ∧ ∃ vec,
      _encode_text fit transform self text = (Ok vec, self)
      ∧ _encode_text fit transform self' text = (Ok vec, self')
      ∧ length vec = DEFAULT_DIM.
Proof.
  intros self self' Hf.
  assert (Hok : engine_ok self) by (apply run_calls_ok, init_ok).
  assert (Heq : self' = self) by (by apply run_calls_fitted).
  rewrite Heq. repeat split; [exact Hf|].
  destruct Hok as [Hd Hv]. destruct (Hv Hf) as [v Hvec].
  exists (fix_width (embedding_dim self) (transform v text)).
  rewrite (_encode_text_fitted self text v) by done.
  repeat split. rewrite fix_width_length. exact Hd.
Qed.

(** ** The facade *)

Lemma create_profile_text_embedding (d : Dict) (existing : option (list Q)) :
  create_profile_text (with_embedding existing d) = create_profile_text d.
Proof. reflexivity. Qed.

Lemma create_project_text_embedding (d : Dict) (existing : option (list Q)) :
  create_project_text (with_embedding existing d) = create_project_text d.
Proof. reflexivity. Qed.

(** The embedding a record carries has no part in what [ensure_embedding]
    returns. *)
Lemma ensure_embedding_ignores_existing (self : MatchingEngineWrapper Vocabulary)
    (data_dict : Dict) (kind : string) (existing : option (list Q)) :
  ensure_embedding fit transform self (with_embedding existing data_dict) kind
  = ensure_embedding fit transform self data_dict kind.
Proof.
  unfold ensure_embedding, embed_profile, embed_project.
  by rewrite create_profile_text_embedding, create_project_text_embedding.
Qed.

(** C7: [ensure_embedding] always returns a vector; without an engine,
    and whenever the embedding of the record raises, the vector is the
    filler of 384 copies of 0.1. *)
Theorem ensure_embedding_never_raises (self : MatchingEngineWrapper Vocabulary)
    (data_dict : Dict) (kind : string) :
  (∃ vec, fst (ensure_embedding fit transform self data_dict kind) = Ok vec)
  ∧ (embedding_engine self = None →
     fst (ensure_embedding fit transform self data_dict kind) = Ok filler_vector)
  ∧ (∀ eng e,
       embedding_engine self = Some eng →
       fst (if decide (kind = "profile")
            then embed_profile fit transform eng data_dict
            else embed_project fit transform eng data_dict) = Raise e →
       fst (ensure_embedding fit transform self data_dict kind) = Ok filler_vector)
  ∧ filler_vector = replicate DEFAULT_DIM (1 # 10).
Proof.
  unfold ensure_embedding.
  destruct (embedding_engine self) as [eng|].
  - destruct (if decide (kind = "profile")
              then embed_profile fit transform eng data_dict
              else embed_project fit transform eng data_dict) as [[vec|e] eng'] eqn:E;
      simpl; (split; [by eexists|]); (split; [discriminate|]);
      (split; [|reflexivity]); intros eng0 e0 [= <-]; rewrite E; simpl.
    + discriminate.
    + reflexivity.
  - simpl. split; [by eexists|]. split; [reflexivity|].
    split; [discriminate | reflexivity].
Qed.

End FeaturizerProperties.

Lemma encode_deterministic_once_fitted_witness :
  _fitted (run_calls example_fit example_transform EmbeddingEngine_init
             [CallEncodeText "python react"]) = true
  ∧ run_calls example_fit example_transform
      (run_calls example_fit example_transform EmbeddingEngine_init
         [CallEncodeText "python react"])
      [CallEmbedProfile sample_user; CallEnsureFitted ["go"]]
    = run_calls example_fit example_transform EmbeddingEngine_init
        [CallEncodeText "python react"].
Proof.
  split; [reflexivity|].
  apply (encode_deterministic_once_fitted example_fit example_transform
           [CallEncodeText "python react"]
           [CallEmbedProfile sample_user; CallEnsureFitted ["go"]] "python").
  reflexivity.
Defined.

(** The first text fits the vocabulary; a later text with other words is
    encoded against it. *)
Example encode_after_fit :
  take 3 <$> (match fst (_encode_text example_fit example_transform
                           (run_calls example_fit example_transform EmbeddingEngine_init
                              [CallEncodeText "python react"])
                           "react react go") with
              | Ok v => Some v | Raise _ => None end)
  = Some [inject_Z 0; inject_Z 2; 0].
Proof. vm_compute. reflexivity. Qed.

(** A record whose [experience_years] is a string makes [embed_profile]
    raise; the facade answers with the filler. *)
Lemma ensure_embedding_never_raises_witness :
  embed_profile example_fit example_transform EmbeddingEngine_init malformed_user
  = (Raise TypeError, EmbeddingEngine_init)
  ∧ fst (ensure_embedding example_fit example_transform
           (mkWrapper (Some EmbeddingEngine_init)) malformed_user "profile")
    = Ok filler_vector.
Proof.
  split; [vm_compute; reflexivity|].
  destruct (ensure_embedding_never_raises example_fit example_transform
              (mkWrapper (Some EmbeddingEngine_init)) malformed_user "profile")
    as (_ & _ & H & _).
  apply (H EmbeddingEngine_init TypeError); [reflexivity|].
  vm_compute. reflexivity.
Defined.

(** A text without a word cannot be fitted: the fit raises, and the facade
    answers with the filler. *)
Example ensure_embedding_empty_text :
  fst (ensure_embedding example_fit example_transform
         (mkWrapper (Some EmbeddingEngine_init))
         (with_experience_years (Some PyNone) empty_dict) "profile")
  = Ok filler_vector.
Proof. vm_compute. reflexivity. Qed.

(** C6, on the code: [ensure_embedding] never reads the embedding a record
    carries.  For [embedded_user], which carries 384 copies of 0.5, it
    returns the freshly computed vector, which is a different one; and in
    general its result is the same whatever embedding the record carries. *)
Theorem ensure_embedding_recomputes :
  d_embedding embedded_user = Some (replicate 384 (1 # 2))
  ∧ (∃ vec,
       fst (ensure_embedding example_fit example_transform
              (mkWrapper (Some EmbeddingEngine_init)) embedded_user "profile")
       = Ok vec
       ∧ vec ≠ replicate 384 (1 # 2))
  ∧ (∀ (Vocabulary : Type) (fit : list string → result Vocabulary)
       (transform : Vocabulary → string → list Q)
       (self : MatchingEngineWrapper Vocabulary) (data_dict : Dict) (kind : string)
       (existing : option (list Q)),
       ensure_embedding fit transform self (with_embedding existing data_dict) kind
       = ensure_embedding fit transform self data_dict kind).
Proof.
  split; [reflexivity|]. split.
  - eexists. split; [vm_compute; reflexivity|].
    intros H. apply (f_equal (λ l, l !! 383%nat)) in H.
    vm_compute in H. discriminate.
  - intros. apply ensure_embedding_ignores_existing.
Qed.

(** * Further properties *)

(** ** Normalization of skills *)

Lemma string_forall_impl (p q : ascii → bool) (s : string) :
  (∀ c, p c = true → q c = true) →
  string_forall p s = true → string_forall q s = true.
Proof.
  intros Hpq. induction s as [|c s IH]; simpl; [done|].
  rewrite !andb_true_iff. intros [Hc Hs]. auto.
Qed.

Lemma string_forall_and (p q : ascii → bool) (s : string) :
  string_forall p s = true → string_forall q s = true →
  string_forall (λ c, p c && q c) s = true.
Proof.
  induction s as [|c s IH]; simpl; [done|].
  rewrite !andb_true_iff. intros [Hc Hs] [Hc' Hs']. auto.
Qed.

Lemma string_forall_filter (p q : ascii → bool) (s : string) :
  string_forall q s = true → string_forall q (string_filter p s) = true.
Proof.
  induction s as [|c s IH]; simpl; [done|].
  rewrite andb_true_iff. intros [Hc Hs].
  destruct (p c); simpl; [rewrite Hc|]; auto.
Qed.

Lemma string_filter_forall (p : ascii → bool) (s : string) :
  string_forall p (string_filter p s) = true.
Proof.
  induction s as [|c s IH]; simpl; [done|].
  destruct (p c) eqn:E; simpl; [rewrite E|]; auto.
Qed.

Lemma string_filter_id (p : ascii → bool) (s : string) :
  string_forall p s = true → string_filter p s = s.
Proof.
  induction s as [|c s IH]; simpl; [done|].
  rewrite andb_true_iff. intros [-> Hs]. by rewrite IH.
Qed.

Lemma string_forall_drop_while (p q : ascii → bool) (s : string) :
  string_forall q s = true → string_forall q (string_drop_while p s) = true.
Proof.
  induction s as [|c s IH]; simpl; [done|].
  rewrite andb_true_iff. intros [Hc Hs].
  destruct (p c); simpl; [auto | by rewrite Hc, Hs].
Qed.

Lemma string_drop_while_id (p : ascii → bool) (s : string) :
  string_forall (λ c, negb (p c)) s = true → string_drop_while p s = s.
Proof.
  destruct s as [|c s]; simpl; [done|].
  rewrite andb_true_iff. intros [Hc _]. by destruct (p c).
Qed.

Lemma string_forall_rev_app (q : ascii → bool) (s1 s2 : string) :
  string_forall q (String.rev_app s1 s2)
  = string_forall q s1 && string_forall q s2.
Proof.
  revert s2. induction s1 as [|c s1 IH]; intros s2; simpl; [done|].
  rewrite IH. simpl. destruct (q c), (string_forall q s1); simpl; auto.
Qed.

Lemma string_forall_rev (q : ascii → bool) (s : string) :
  string_forall q (String.rev s) = string_forall q s.
Proof. unfold String.rev. rewrite string_forall_rev_app. simpl. apply andb_true_r. Qed.

Lemma string_forall_strip (q : ascii → bool) (s : string) :
  string_forall q s = true → string_forall q (py_strip s) = true.
Proof.
  intros H. unfold py_strip.
  rewrite string_forall_rev. apply string_forall_drop_while.
  rewrite string_forall_rev. by apply string_forall_drop_while.
Qed.

Lemma string_forall_map (q : ascii → bool) (f : ascii → ascii) (s : string) :
  string_forall q (string_map f s) = string_forall (λ c, q (f c)) s.
Proof. induction s as [|c s IH]; simpl; [done|]. by rewrite IH. Qed.

Lemma string_forall_true (q : ascii → bool) (s : string) :
  (∀ c, q c = true) → string_forall q s = true.
Proof. intros H. induction s as [|c s IH]; simpl; [done|]. by rewrite H, IH. Qed.

Lemma string_map_id (f : ascii → ascii) (p : ascii → bool) (s : string) :
  (∀ c, p c = true → f c = c) → string_forall p s = true → string_map f s = s.
Proof.
  intros Hf. induction s as [|c s IH]; simpl; [done|].
  rewrite andb_true_iff. intros [Hc Hs]. by rewrite Hf, IH.
Qed.

Lemma string_app_nil_r (s : string) : s +:+ "" = s.
Proof.
  induction s as [|c s IH]; [done|].
  change (String c (s +:+ "") = String c s). by rewrite IH.
Qed.

Lemma string_rev_app_rev_app (s1 s2 s3 : string) :
  String.rev_app (String.rev_app s1 s2) s3 = String.rev_app s2 (s1 +:+ s3).
Proof.
  revert s2 s3. induction s1 as [|c s1 IH]; intros s2 s3; simpl; [done|].
  by rewrite IH.
Qed.

Lemma string_rev_involutive (s : string) : String.rev (String.rev s) = s.
Proof.
  unfold String.rev. rewrite string_rev_app_rev_app. simpl.
  apply string_app_nil_r.
Qed.

Lemma py_strip_id (s : string) :
  string_forall (λ c, negb (py_isspace c)) s = true → py_strip s = s.
Proof.
  intros H. unfold py_strip.
  rewrite (string_drop_while_id py_isspace s H).
  rewrite string_drop_while_id by (by rewrite string_forall_rev).
  apply string_rev_involutive.
Qed.

Lemma ascii_lower_not_upper (c : ascii) : is_upper (ascii_lower c) = false.
Proof. by destruct c as [[] [] [] [] [] [] [] []]. Qed.

Lemma ascii_lower_id (c : ascii) : is_upper c = false → ascii_lower c = c.
Proof. unfold is_upper, ascii_lower. by intros ->. Qed.

Lemma ascii_lower_odd_space (c : ascii) :
  is_odd_space (ascii_lower c) = is_odd_space c.
Proof. by destruct c as [[] [] [] [] [] [] [] []]. Qed.

Lemma py_remove_forall (x : ascii) (q : ascii → bool) (s : string) :
  string_forall q s = true → string_forall q (py_remove x s) = true.
Proof. apply string_forall_filter. Qed.

(** What every stage of [normalize_skill] keeps once it holds *)
Lemma normalize_skill_keeps (q : ascii → bool) (s : string) :
  string_forall q (py_lower s) = true →
  string_forall q (normalize_skill s) = true.
Proof.
  intros H. unfold normalize_skill.
  do 4 apply py_remove_forall. by apply string_forall_strip.
Qed.

Lemma normalize_skill_no_upper (s : string) :
  string_forall (λ c, negb (is_upper c)) (normalize_skill s) = true.
Proof.
  apply normalize_skill_keeps. unfold py_lower. rewrite string_forall_map.
  apply string_forall_true. intros c. by rewrite ascii_lower_not_upper.
Qed.

Lemma normalize_skill_no_separator (s : string) :
  string_forall (λ c, negb (is_separator c)) (normalize_skill s) = true.
Proof.
  unfold normalize_skill.
  set (s0 := py_strip (py_lower s)).
  pose proof (string_filter_forall (λ x, negb (Ascii.eqb x ".")) s0) as H1.
  fold (py_remove "." s0) in H1. set (s1 := py_remove "." s0) in *.
  pose proof (string_filter_forall (λ x, negb (Ascii.eqb x " ")) s1) as H2.
  fold (py_remove " " s1) in H2.
  apply (py_remove_forall " ") in H1. set (s2 := py_remove " " s1) in *.
  pose proof (string_filter_forall (λ x, negb (Ascii.eqb x "-")) s2) as H3.
  fold (py_remove "-" s2) in H3.
  apply (py_remove_forall "-") in H1, H2. set (s3 := py_remove "-" s2) in *.
  pose proof (string_filter_forall (λ x, negb (Ascii.eqb x "_")) s3) as H4.
  fold (py_remove "_" s3) in H4.
  apply (py_remove_forall "_") in H1, H2, H3. set (s4 := py_remove "_" s3) in *.
  pose proof (string_forall_and _ _ _ (string_forall_and _ _ _
                (string_forall_and _ _ _ H1 H2) H3) H4) as H.
  revert H. apply string_forall_impl. intros c. unfold is_separator.
  destruct (Ascii.eqb c "."), (Ascii.eqb c " "), (Ascii.eqb c "-"), (Ascii.eqb c "_");
    simpl; congruence.
Qed.

(** X1: a normalized skill contains none of the separators ".", " ", "-",
    "_" and no capital letter. *)
Theorem normalize_skill_clean (skill : string) :
  string_forall (λ c, negb (is_separator c) && negb (is_upper c))
    (normalize_skill skill) = true.
Proof.
  apply string_forall_and;
    [apply normalize_skill_no_separator | apply normalize_skill_no_upper].
Qed.

Lemma normalize_skill_fixpoint (r : string) :
  string_forall (λ c, negb (is_upper c)) r = true →
  string_forall (λ c, negb (is_separator c)) r = true →
  string_forall (λ c, negb (py_isspace c)) r = true →
  normalize_skill r = r.
Proof.
  intros Hu Hs Hw. unfold normalize_skill, py_lower.
  rewrite (string_map_id ascii_lower (λ c, negb (is_upper c)) r); [|clear|done].
  2:{ intros c Hc. apply ascii_lower_id. by destruct (is_upper c). }
  rewrite (py_strip_id r Hw).
  assert (Hrm : ∀ x, is_separator x = true → py_remove x r = r).
  { intros x Hx. apply string_filter_id. revert Hs. apply string_forall_impl.
    intros c Hc. destruct (Ascii.eqb_spec c x) as [->|]; [|done].
    by rewrite Hx in Hc. }
  by rewrite !Hrm.
Qed.

(** X2: normalizing twice is normalizing once, for every skill whose only
    whitespace is the space character. *)
Theorem normalize_skill_idempotent (skill : string) :
  string_forall (λ c, negb (is_odd_space c)) skill = true →
  normalize_skill (normalize_skill skill) = normalize_skill skill.
Proof.
  intros H. apply normalize_skill_fixpoint.
  - apply normalize_skill_no_upper.
  - apply normalize_skill_no_separator.
  - assert (Ho : string_forall (λ c, negb (is_odd_space c)) (normalize_skill skill) = true).
    { apply normalize_skill_keeps. unfold py_lower. rewrite string_forall_map.
      revert H. apply string_forall_impl. intros c. by rewrite ascii_lower_odd_space. }
    pose proof (string_forall_and _ _ _ Ho (normalize_skill_no_separator skill)) as Hb.
    revert Hb. apply string_forall_impl. intros c.
    unfold is_odd_space, is_separator.
    destruct (py_isspace c), (Ascii.eqb c " "), (Ascii.eqb c "."); simpl; congruence.
Qed.

Lemma normalize_skill_idempotent_witness :
  normalize_skill (normalize_skill " Node.JS - v_2 ") = normalize_skill " Node.JS - v_2 ".
Proof. apply (normalize_skill_idempotent " Node.JS - v_2 "). reflexivity. Defined.

(** A tab inside a skill survives the first pass and is stripped by the
    second, once the dot in front of it is gone. *)
Example normalize_skill_tab :
  normalize_skill (String "." (String "009" "a")) = String "009" "a"
  ∧ normalize_skill (String "009" "a") = "a".
Proof. split; reflexivity. Qed.

(** ** More on the skill overlap *)

(** The result for a non-empty requirement, with its parts named *)
Lemma calculate_skill_overlap_nonempty (user_skills required_skills : list string) :
  required_skills ≠ [] →
  ∃ shared complementary,
    calculate_skill_overlap user_skills required_skills
    = Ok (Qmin (Qsize (normalized_keys user_skills ∩ normalized_keys required_skills)
                  / Qsize (normalized_keys required_skills)
                + Qmin (Qsize (normalized_keys user_skills
                                 ∖ normalized_keys required_skills) * (5 # 100))
                       (2 # 10))
               1,
          shared, complementary)
    ∧ normalize_skill <$> shared
      = py_sorted (normalized_keys user_skills ∩ normalized_keys required_skills)
    ∧ normalize_skill <$> complementary
      = py_sorted (normalized_keys required_skills ∖ normalized_keys user_skills)
    ∧ Forall (λ s, s ∈ required_skills) shared
    ∧ Forall (λ s, s ∈ required_skills) complementary.
Proof.
  intros Hne. unfold calculate_skill_overlap.
  destruct (decide (required_skills = [])) as [|_]; [done|].
  destruct (mapM_getitem required_skills
              (py_sorted (dom (skill_dict user_skills) ∩ dom (skill_dict required_skills))))
    as (shared & Hs & Hsn & Hsf).
  { intros k Hk. apply py_sorted_listing in Hk. set_solver. }
  destruct (mapM_getitem required_skills
              (py_sorted (dom (skill_dict required_skills) ∖ dom (skill_dict user_skills))))
    as (comp & Hc & Hcn & Hcf).
  { intros k Hk. apply py_sorted_listing in Hk. set_solver. }
  rewrite Hs. simpl. rewrite Hc. simpl.
  destruct (decide (skill_dict required_skills = ∅)) as [He|_].
  { by apply skill_dict_empty_iff in He. }
  exists shared, comp. rewrite Hsn, Hcn, !skill_dict_dom. by unfold normalized_keys.
Qed.

Lemma Qsize_nonneg (S : gset string) : 0 <= Qsize S.
Proof. unfold Qsize. change 0 with (inject_Z 0). rewrite <- Zle_Qle. lia. Qed.

Lemma Qsize_le (S T : gset string) : S ⊆ T → Qsize S <= Qsize T.
Proof.
  intros H. unfold Qsize. rewrite <- Zle_Qle.
  apply inj_le. by apply subseteq_size.
Qed.

Lemma normalized_keys_nonempty (skills : list string) :
  skills ≠ [] → 0 < Qsize (normalized_keys skills).
Proof.
  intros H. destruct skills as [|x l]; [done|].
  unfold Qsize. change 0 with (inject_Z 0). rewrite <- Zlt_Qlt.
  assert (size (normalized_keys (x :: l)) ≠ 0%nat); [|lia].
  intros Hz. apply size_empty_inv in Hz.
  unfold normalized_keys in Hz. set_solver.
Qed.

Lemma overlap_ratio_range (U R : gset string) :
  0 < Qsize R → 0 <= Qsize (U ∩ R) / Qsize R ∧ Qsize (U ∩ R) / Qsize R <= 1.
Proof.
  intros Hpos. split.
  - apply Qle_shift_div_l; [done|]. rewrite Qmult_0_l. apply Qsize_nonneg.
  - apply Qle_shift_div_r; [done|]. rewrite Qmult_1_l.
    apply Qsize_le. set_solver.
Qed.

Lemma bonus_range (S : gset string) :
  0 <= Qmin (Qsize S * (5 # 100)) (2 # 10) ∧ Qmin (Qsize S * (5 # 100)) (2 # 10) <= 2 # 10.
Proof.
  split; [|apply Q.le_min_r].
  apply Q.min_glb; [|discriminate].
  pose proof (Qsize_nonneg S). nra.
Qed.

Lemma calculate_skill_overlap_range (user_skills required_skills : list string)
    (score : Q) (shared complementary : list string) :
  calculate_skill_overlap user_skills required_skills
  = Ok (score, shared, complementary) →
  0 <= score ∧ score <= 1.
Proof.
  destruct required_skills as [|x l].
  - intros [= <- _ _]. split; discriminate.
  - destruct (calculate_skill_overlap_nonempty user_skills (x :: l))
      as (sh & co & -> & _); [done|].
    intros [= <- _ _].
    pose proof (overlap_ratio_range (normalized_keys user_skills)
                  (normalized_keys (x :: l))
                  (normalized_keys_nonempty (x :: l) ltac:(done))) as [H1 H2].
    pose proof (bonus_range (normalized_keys user_skills ∖ normalized_keys (x :: l)))
      as [H3 H4].
    split; [|apply Q.le_min_r].
    apply Q.min_glb; [|discriminate]. lra.
Qed.

(** X3: the skill score is always between 0 and 1. *)
Theorem skill_overlap_score_bounds (user_skills required_skills : list string) :
  ∃ score shared complementary,
    calculate_skill_overlap user_skills required_skills
    = Ok (score, shared, complementary)
    ∧ 0 <= score ∧ score <= 1.
Proof.
  destruct (calculate_skill_overlap_returns user_skills required_skills)
    as [[[score shared] comp] H].
  exists score, shared, comp. split; [exact H|].
  by eapply calculate_skill_overlap_range.
Qed.

Lemma py_sorted_empty_iff (S : gset string) : py_sorted S = [] ↔ S = ∅.
Proof.
  split.
  - intros H. apply set_eq. intros k.
    rewrite <- (proj2 (proj2 (py_sorted_listing S)) k), H. set_solver.
  - intros ->. unfold py_sorted. by rewrite elements_empty.
Qed.

Lemma keys_split (U R : gset string) : (U ∩ R) ∪ (R ∖ U) = R.
Proof. apply set_eq. intros k. destruct (decide (k ∈ U)); set_solver. Qed.

(** X4: against a non-empty requirement, [shared] and [complementary]
    split the required keys: no skill is in both, neither repeats a skill,
    and together they have one entry per distinct required key. *)
Theorem skill_overlap_partition (user_skills required_skills : list string) :
  required_skills ≠ [] →
  ∃ score shared complementary,
    calculate_skill_overlap user_skills required_skills
    = Ok (score, shared, complementary)
    ∧ (length shared + length complementary
       = size (normalized_keys required_skills))%nat
    ∧ (∀ s, s ∈ shared → s ∉ complementary)
    ∧ NoDup shared ∧ NoDup complementary
    ∧ (∀ k, k ∈ normalized_keys required_skills
            ↔ k ∈ normalize_skill <$> (shared ++ complementary)).
Proof.
  intros Hne.
  destruct (calculate_skill_overlap_nonempty user_skills required_skills Hne)
    as (shared & comp & Heq & Hs & Hc & _ & _).
  set (U := normalized_keys user_skills) in *.
  set (R := normalized_keys required_skills) in *.
  do 3 eexists. split; [exact Heq|].
  pose proof (py_sorted_listing (U ∩ R)) as (_ & Hnd1 & Hin1).
  pose proof (py_sorted_listing (R ∖ U)) as (_ & Hnd2 & Hin2).
  split; [|split; [|split; [|split]]].
  - rewrite <- (length_fmap normalize_skill shared), Hs.
    rewrite <- (length_fmap normalize_skill comp), Hc.
    rewrite !py_sorted_length, <- size_union by set_solver.
    by rewrite keys_split.
  - intros s H1 H2.
    assert (normalize_skill s ∈ U ∩ R)
      by (apply Hin1; rewrite <- Hs; by apply list_elem_of_fmap_2).
    assert (normalize_skill s ∈ R ∖ U)
      by (apply Hin2; rewrite <- Hc; by apply list_elem_of_fmap_2).
    set_solver.
  - apply (NoDup_fmap_1 normalize_skill). by rewrite Hs.
  - apply (NoDup_fmap_1 normalize_skill). by rewrite Hc.
  - intros k. rewrite fmap_app, elem_of_app, Hs, Hc, Hin1, Hin2.
    rewrite <- (keys_split U R) at 1. set_solver.
Qed.

Lemma skill_overlap_partition_witness :
  ∃ score shared complementary,
    calculate_skill_overlap ["Go"; "react"] ["React"; "go"; "Rust"; "GO"]
    = Ok (score, shared, complementary)
    ∧ (length shared + length complementary
       = size (normalized_keys ["React"; "go"; "Rust"; "GO"]))%nat.
Proof.
  destruct (skill_overlap_partition ["Go"; "react"] ["React"; "go"; "Rust"; "GO"])
    as (score & shared & comp & H1 & H2 & _); [discriminate|].
  exists score, shared, comp. auto.
Defined.

Example skill_overlap_last_spelling :
  calculate_skill_overlap ["Go"; "react"] ["React"; "go"; "Rust"; "GO"]
  = Ok (Qmin ((2 # 1) / (3 # 1) + Qmin (0 * (5 # 100)) (2 # 10)) 1,
        ["GO"; "React"], ["Rust"]).
Proof. vm_compute. reflexivity. Qed.

(** X5: the candidate's skills count only through their normalized keys:
    two skill lists with the same set of keys (in any order, spelling or
    multiplicity) get the same score, shared and complementary lists. *)
Theorem skill_overlap_user_keys (user1 user2 required_skills : list string) :
  normalized_keys user1 = normalized_keys user2 →
  calculate_skill_overlap user1 required_skills
  = calculate_skill_overlap user2 required_skills.
Proof.
  unfold normalized_keys. intros H. unfold calculate_skill_overlap.
  by rewrite (skill_dict_dom user1), (skill_dict_dom user2), H.
Qed.

Lemma skill_overlap_user_keys_witness :
  calculate_skill_overlap ["React.JS"; "python"; "PYTHON"] ["reactjs"; "sql"]
  = calculate_skill_overlap ["Python"; "react-js"] ["reactjs"; "sql"].
Proof.
  apply (skill_overlap_user_keys ["React.JS"; "python"; "PYTHON"]
           ["Python"; "react-js"] ["reactjs"; "sql"]).
  vm_compute. reflexivity.
Defined.

(** X6: against a non-empty requirement, [complementary] is empty exactly
    when every required key is among the candidate's keys, and the score is
    then 1. *)
Theorem skill_overlap_full_cover (user_skills required_skills : list string) :
  required_skills ≠ [] →
  ∃ score shared complementary,
    calculate_skill_overlap user_skills required_skills
    = Ok (score, shared, complementary)
    ∧ (complementary = []
       ↔ normalized_keys required_skills ⊆ normalized_keys user_skills)
    ∧ (complementary = [] → score == 1).
Proof.
  intros Hne.
  destruct (calculate_skill_overlap_nonempty user_skills required_skills Hne)
    as (shared & comp & Heq & Hs & Hc & _ & _).
  set (U := normalized_keys user_skills) in *.
  set (R := normalized_keys required_skills) in *.
  do 3 eexists. split; [exact Heq|].
  assert (Hiff : comp = [] ↔ R ⊆ U).
  { assert (Hd : comp = [] ↔ R ∖ U = ∅).
    { split.
      - intros ->. apply py_sorted_empty_iff. by rewrite <- Hc.
      - intros H%py_sorted_empty_iff. rewrite H in Hc. by apply fmap_nil_inv in Hc. }
    rewrite Hd. split; [|set_solver].
    intros H k Hk. destruct (decide (k ∈ U)); [done|]. set_solver. }
  split; [exact Hiff|].
  intros HR%Hiff.
  assert (HUR : U ∩ R = R) by set_solver. rewrite HUR.
  pose proof (normalized_keys_nonempty required_skills Hne) as Hpos. fold R in Hpos.
  pose proof (bonus_range (U ∖ R)) as [Hb _].
  assert (Hratio : Qsize R / Qsize R == 1) by (field; lra).
  rewrite Hratio. apply Q.min_r. lra.
Qed.

Lemma skill_overlap_full_cover_witness :
  ∃ score shared,
    calculate_skill_overlap ["SQL"; "Node.js"; "go"] ["sql"; "node-js"]
    = Ok (score, shared, [])
    ∧ score == 1.
Proof.
  destruct (skill_overlap_full_cover ["SQL"; "Node.js"; "go"] ["sql"; "node-js"])
    as (score & shared & comp & H1 & H2 & H3); [discriminate|].
  assert (Hc : comp = []).
  { apply H2. apply (bool_decide_unpack _). vm_compute. exact I. }
  subst comp. exists score, shared. auto.
Defined.

(** ** Role match *)

Lemma Qsize_eq_iff (S T : gset string) : Qsize S == Qsize T ↔ size S = size T.
Proof. unfold Qsize. rewrite inject_Z_injective. lia. Qed.

Lemma ratio_one_iff (X R : gset string) :
  0 < Qsize R → X ⊆ R → (Qsize X / Qsize R == 1 ↔ X = R).
Proof.
  intros Hpos Hsub. split.
  - intros H. apply set_subseteq_size_eq; [done|].
    assert (Hx : Qsize X == Qsize R).
    { transitivity (Qsize X / Qsize R * Qsize R); [field; lra|].
      transitivity (1 * Qsize R); [|ring].
      apply Qmult_comp; [exact H | reflexivity]. }
    apply Qsize_eq_iff in Hx. lia.
  - intros ->. field. lra.
Qed.

(** X7: without required roles the role score is 1 with no matched role.
    Otherwise the matched roles are, without repetition, the lowercased
    roles found on both sides, the score lies in [0, 1], and it is 1
    exactly when every required role is among the candidate's. *)
Theorem role_match_spec (user_roles required_roles : option (list string)) :
  (py_or_list required_roles [] = [] →
     calculate_role_match user_roles required_roles = (1, []))
  ∧ (py_or_list required_roles [] ≠ [] →
     ∃ ratio matched,
       calculate_role_match user_roles required_roles = (ratio, matched)
       ∧ 0 <= ratio ∧ ratio <= 1
       ∧ NoDup matched
       ∧ (∀ m, m ∈ matched
               ↔ m ∈ py_lower <$> py_or_list user_roles []
                 ∧ m ∈ py_lower <$> py_or_list required_roles [])
       ∧ (ratio == 1
          ↔ ∀ m, m ∈ py_lower <$> py_or_list required_roles [] →
                 m ∈ py_lower <$> py_or_list user_roles [])).
Proof.
  split.
  - destruct required_roles as [[|r rs]|]; simpl; done.
  - destruct required_roles as [[|r rs]|]; [done| |done]. intros _.
    change (py_or_list (Some (r :: rs)) []) with (r :: rs).
    unfold calculate_role_match.
    set (U := list_to_set (py_lower <$> py_or_list user_roles []) : gset string).
    set (R := list_to_set (py_lower <$> (r :: rs)) : gset string).
    assert (HR : R ≠ ∅) by (subst R; set_solver).
    destruct (decide (R = ∅)) as [|_]; [done|].
    assert (Hpos : 0 < Qsize R).
    { unfold Qsize. change 0 with (inject_Z 0). rewrite <- Zlt_Qlt.
      assert (size R ≠ 0%nat); [|lia]. intros Hz.
      apply size_empty_inv in Hz. by apply leibniz_equiv in Hz. }
    do 2 eexists. split; [reflexivity|].
    change (Qlen (py_list_of_set (U ∩ R))) with (Qsize (U ∩ R)).
    destruct (overlap_ratio_range U R Hpos) as [H0 H1].
    split; [exact H0|]. split; [exact H1|].
    split; [apply NoDup_elements|]. split.
    + intros m. unfold py_list_of_set. rewrite elem_of_elements.
      subst U R. set_solver.
    + rewrite ratio_one_iff by (done || set_solver).
      subst U R. split.
      * intros H m Hm. set_solver.
      * intros H. apply set_eq. intros k. set_solver.
Qed.

Lemma role_match_spec_witness :
  ∃ ratio matched,
    calculate_role_match (Some ["Backend"; "ML_Engineer"]) (Some ["backend"; "Frontend"])
    = (ratio, matched)
    ∧ 0 <= ratio ∧ ratio <= 1.
Proof.
  destruct (proj2 (role_match_spec (Some ["Backend"; "ML_Engineer"])
                     (Some ["backend"; "Frontend"])))
    as (ratio & matched & H & H0 & H1 & _); [discriminate|].
  exists ratio, matched. auto.
Defined.

Example role_match_half :
  calculate_role_match (Some ["Backend"; "ML_Engineer"]) (Some ["backend"; "Frontend"])
  = (inject_Z 1 / inject_Z 2, ["backend"]).
Proof. vm_compute. reflexivity. Qed.

(** ** Experience fit: range and errors *)

Lemma under_penalty_range (gap : Z) :
  (0 <= gap)%Z →
  5 # 10 <= Qmax (5 # 10) (1 - inject_Z gap * (15 # 100))
  ∧ Qmax (5 # 10) (1 - inject_Z gap * (15 # 100)) <= 1.
Proof.
  intros H. split; [apply Q.le_max_l|].
  assert (0 <= inject_Z gap) by (change 0 with (inject_Z 0); by rewrite <- Zle_Qle).
  apply Q.max_lub; [discriminate | lra].
Qed.

Lemma over_penalty_range (gap : Z) :
  (0 <= gap)%Z →
  7 # 10 <= Qmax (7 # 10) (1 - inject_Z gap * (5 # 100))
  ∧ Qmax (7 # 10) (1 - inject_Z gap * (5 # 100)) <= 1.
Proof.
  intros H. split; [apply Q.le_max_l|].
  assert (0 <= inject_Z gap) by (change 0 with (inject_Z 0); by rewrite <- Zle_Qle).
  apply Q.max_lub; [discriminate | lra].
Qed.

Lemma calculate_experience_fit_range (a b c : pyval) (q : Q) :
  calculate_experience_fit a b c = Ok q → 5 # 10 <= q ∧ q <= 1.
Proof.
  unfold calculate_experience_fit.
  destruct a as [|y|s], b as [|mn|smn]; simpl; try discriminate.
  - destruct (Z.ltb_spec y mn); simpl.
    + intros [= <-]. apply under_penalty_range. lia.
    + destruct c as [|mx|smx]; simpl; try discriminate.
      destruct (Z.ltb_spec mx y); simpl; intros [= <-].
      * pose proof (over_penalty_range (y - mx)) as [H1 H2]; [lia|].
        split; [|exact H2]. eapply Qle_trans; [|exact H1]. discriminate.
      * split; discriminate.
  - destruct (String.ltb s smn); simpl; [discriminate|].
    destruct c as [|mx|smx]; simpl; try discriminate.
    destruct (String.ltb smx s); simpl; [discriminate|].
    intros [= <-]. split; discriminate.
Qed.

(** X8: whenever [calculate_experience_fit] returns, its value lies in
    [0.5, 1]; for an integer experience that is not below the integer
    minimum it is at least 0.7. *)
Theorem experience_fit_range (user_exp required_exp_min required_exp_max : pyval) (q : Q) :
  calculate_experience_fit user_exp required_exp_min required_exp_max = Ok q →
  5 # 10 <= q ∧ q <= 1
  ∧ (∀ y mn, user_exp = PyInt y → required_exp_min = PyInt mn → (mn <= y)%Z →
             7 # 10 <= q).
Proof.
  intros H. destruct (calculate_experience_fit_range _ _ _ _ H) as [H1 H2].
  split; [exact H1|]. split; [exact H2|].
  intros y mn -> -> Hle. revert H. unfold calculate_experience_fit. simpl.
  destruct (Z.ltb_spec y mn); [lia|]. simpl.
  destruct required_exp_max as [|mx|smx]; simpl; try discriminate.
  destruct (Z.ltb_spec mx y); simpl; intros [= <-].
  - apply over_penalty_range. lia.
  - discriminate.
Qed.

Lemma experience_fit_range_witness :
  ∃ q, calculate_experience_fit (PyInt 40) (PyInt 2) (PyInt 5) = Ok q
       ∧ 5 # 10 <= q ∧ q <= 1.
Proof.
  eexists. split; [reflexivity|].
  destruct (experience_fit_range (PyInt 40) (PyInt 2) (PyInt 5) _ eq_refl)
    as (H1 & H2 & _).
  split; [exact H1 | exact H2].
Defined.



(** ** More on [match_user_to_project] *)

(** [match_user_to_project] in terms of the arguments it passes on *)
Lemma match_user_to_project_unfold cosine (user_data project_data : Dict) :
  match_user_to_project cosine user_data project_data
  = ('(skill_score, shared_skills, complementary) ←
       calculate_skill_overlap (user_skills_of user_data) (proj_skills_of project_data);
     emb_score ← embedding_score_of cosine user_data project_data;
     exp_score ← experience_fit_of user_data project_data;
     Ok {| target_id := py_str (default (PyStr "unknown") (d_id project_data));
           score :=
             boost_and_clamp
               (weighted_sum skill_score emb_score
                  (fst (role_match_of user_data project_data)) exp_score
                  (availability_of user_data project_data))
               shared_skills;
           reasons :=
             build_reasons (proj_skills_of project_data) shared_skills
               (snd (role_match_of user_data project_data)) complementary emb_score;
           shared_skills := shared_skills;
           complementary_skills := complementary |}).
Proof.
  unfold match_user_to_project, role_match_of, embedding_score_of, experience_fit_of,
    availability_of, user_skills_of, proj_skills_of.
  destruct (calculate_skill_overlap _ _) as [[[skill_score shared] comp]|e]; [|done].
  simpl.
  destruct (match d_embedding user_data with Some _ => _ | None => _ end)
    as [emb_score|e]; [|done].
  simpl. by destruct (calculate_role_match _ _).
Qed.


(** The parts of a returned match *)
Lemma match_user_to_project_parts cosine (user_data project_data : Dict) (m : Match) :
  match_user_to_project cosine user_data project_data = Ok m →
  ∃ skill_score emb_score exp_score,
    calculate_skill_overlap (user_skills_of user_data) (proj_skills_of project_data)
    = Ok (skill_score, shared_skills m, complementary_skills m)
    ∧ embedding_score_of cosine user_data project_data = Ok emb_score
    ∧ experience_fit_of user_data project_data = Ok exp_score
    ∧ score m
      = boost_and_clamp
          (weighted_sum skill_score emb_score
             (fst (role_match_of user_data project_data)) exp_score
             (availability_of user_data project_data))
          (shared_skills m)
    ∧ reasons m
      = build_reasons (proj_skills_of project_data) (shared_skills m)
          (snd (role_match_of user_data project_data)) (complementary_skills m)
          emb_score
    ∧ target_id m = py_str (default (PyStr "unknown") (d_id project_data)).
Proof.
  rewrite match_user_to_project_unfold. intros H.
  inv_bind H. destruct a as [[skill_score shared] comp].
  inv_bind H. inv_bind H. injection H as <-. simpl.
  exists skill_score, a, a0. auto 10.
Qed.


Example match_fails_on_malformed :
  match_user_to_project example_cosine malformed_user sample_project = Raise TypeError
  ∧ experience_fit_of malformed_user sample_project = Raise TypeError.
Proof. split; vm_compute; reflexivity. Qed.

(** X11: a pair in which one side has no embedding, or whose similarity
    computation raises, is matched exactly as with similarity 0. *)
Theorem match_similarity_fallback cosine (user_data project_data : Dict) :
  (d_embedding user_data = None ∨ d_embedding project_data = None →
   match_user_to_project cosine user_data project_data
   = match_user_to_project zero_cosine user_data project_data)
  ∧ (∀ v1 v2 e,
       d_embedding user_data = Some v1 → d_embedding project_data = Some v2 →
       cosine v1 v2 = Raise e →
       match_user_to_project cosine user_data project_data
       = match_user_to_project zero_cosine user_data project_data).
Proof.
  rewrite !match_user_to_project_unfold. split.
  - intros H. unfold embedding_score_of.
    destruct H as [-> | ->]; [reflexivity|].
    by destruct (d_embedding user_data).
  - intros v1 v2 e H1 H2 Hc. unfold embedding_score_of, calculate_embedding_score.
    rewrite H1, H2, Hc. reflexivity.
Qed.

Lemma match_similarity_fallback_witness :
  example_cosine [1] [1; 0] = Raise ValueError
  ∧ match_user_to_project example_cosine mismatched_user strong_project
    = match_user_to_project zero_cosine mismatched_user strong_project
  ∧ match_user_to_project example_cosine sample_user strong_project
    = match_user_to_project zero_cosine sample_user strong_project.
Proof.
  split; [reflexivity|]. split.
  - apply (proj2 (match_similarity_fallback example_cosine mismatched_user strong_project)
             [1] [1; 0] ValueError); reflexivity.
  - apply (proj1 (match_similarity_fallback example_cosine sample_user strong_project)).
    left. reflexivity.
Defined.

Lemma calculate_role_match_range (user_roles required_roles : option (list string)) :
  0 <= fst (calculate_role_match user_roles required_roles)
  ∧ fst (calculate_role_match user_roles required_roles) <= 1.
Proof.
  destruct required_roles as [[|r rs]|]; try (split; discriminate).
  unfold calculate_role_match.
  set (U := list_to_set (py_lower <$> py_or_list user_roles []) : gset string).
  set (R := list_to_set (py_lower <$> (r :: rs)) : gset string).
  destruct (decide (R = ∅)) as [|HR]; [split; discriminate|].
  cbn [fst].
  change (Qlen (py_list_of_set (U ∩ R))) with (Qsize (U ∩ R)).
  apply overlap_ratio_range.
  unfold Qsize. change 0 with (inject_Z 0). rewrite <- Zlt_Qlt.
  assert (size R ≠ 0%nat); [|lia]. intros Hz.
  apply size_empty_inv in Hz. by apply leibniz_equiv in Hz.
Qed.

Lemma calculate_availability_score_range (user_tz project_tz : option string) :
  8 # 10 <= calculate_availability_score user_tz project_tz
  ∧ calculate_availability_score user_tz project_tz <= 1.
Proof.
  unfold calculate_availability_score.
  destruct (negb (truthy_str user_tz) || negb (truthy_str project_tz));
    [split; discriminate|].
  destruct (decide (user_tz = project_tz)); split; discriminate.
Qed.

Lemma embedding_score_of_le cosine (user_data project_data : Dict) (x : Q) :
  (∀ v1 v2 y, cosine v1 v2 = Ok y → y <= 1) →
  embedding_score_of cosine user_data project_data = Ok x → x <= 1.
Proof.
  intros Hc. unfold embedding_score_of, calculate_embedding_score.
  destruct (d_embedding user_data) as [v1|], (d_embedding project_data) as [v2|];
    try (intros [= <-]; discriminate).
  destruct (cosine v1 v2) as [y|e] eqn:E; simpl; intros [= <-];
    [by eapply Hc | discriminate].
Qed.

(** X12: when the similarity never exceeds 1, the weighted sub-scores
    contribute at most 0.95, so a score is at most 0.95 plus the tie-break
    boost of 0.02 per shared skill; a match with fewer than three shared
    skills scores below 1. *)
Theorem match_score_ceiling cosine (user_data project_data : Dict) (m : Match) :
  (∀ v1 v2 y, cosine v1 v2 = Ok y → y <= 1) →
  match_user_to_project cosine user_data project_data = Ok m →
  score m <= (95 # 100) + Qmin (Qlen (shared_skills m) * (2 # 100)) (12 # 100)
  ∧ ((length (shared_skills m) < 3)%nat → score m < 1).
Proof.
  intros Hc Hm.
  destruct (match_user_to_project_parts _ _ _ _ Hm)
    as (sk & em & ex & Hsk & Hem & Hex & Hscore & _).
  apply calculate_skill_overlap_range in Hsk as [Hs0 Hs1].
  apply (embedding_score_of_le _ _ _ _ Hc) in Hem.
  apply calculate_experience_fit_range in Hex as [Hx0 Hx1].
  destruct (calculate_role_match_range (d_roles user_data)
              (py_or (d_required_roles project_data) (d_roles project_data)))
    as [Hr0 Hr1].
  destruct (calculate_availability_score_range (d_timezone user_data)
              (d_timezone project_data)) as [Ha0 Ha1].
  fold (role_match_of user_data project_data) in Hr0, Hr1.
  fold (availability_of user_data project_data) in Ha0, Ha1.
  set (w := weighted_sum sk em (fst (role_match_of user_data project_data)) ex
              (availability_of user_data project_data)) in *.
  assert (Hw : w <= 95 # 100).
  { subst w. unfold weighted_sum, WEIGHTS.skill_overlap, WEIGHTS.embedding_similarity,
      WEIGHTS.role_match, WEIGHTS.experience_fit, WEIGHTS.availability. lra. }
  set (b := Qmin (Qlen (shared_skills m) * (2 # 100)) (12 # 100)).
  assert (Hb0 : 0 <= b).
  { subst b. apply Q.min_glb; [|discriminate].
    assert (0 <= Qlen (shared_skills m)).
    { unfold Qlen. change 0 with (inject_Z 0). rewrite <- Zle_Qle. lia. }
    nra. }
  assert (Hle : score m <= (95 # 100) + b).
  { rewrite Hscore. unfold boost_and_clamp. fold b.
    apply Q.max_lub; [lra|].
    eapply Qle_trans; [apply Q.le_min_r | lra]. }
  split; [exact Hle|].
  intros Hlen.
  assert (Hb : b <= 4 # 100).
  { subst b. eapply Qle_trans; [apply Q.le_min_l|].
    assert (Qlen (shared_skills m) <= 2).
    { unfold Qlen. change 2 with (inject_Z 2). rewrite <- Zle_Qle. lia. }
    lra. }
  lra.
Qed.

Lemma match_score_ceiling_witness :
  ∃ m, match_user_to_project example_cosine sample_user sample_project = Ok m
       ∧ score m < 1.
Proof.
  eexists. split; [vm_compute; reflexivity|].
  apply (match_score_ceiling example_cosine sample_user sample_project).
  - intros v1 v2 y. unfold example_cosine.
    destruct (negb _); [discriminate|].
    destruct (forallb _ _); intros [= <-]; discriminate.
  - vm_compute. reflexivity.
  - simpl. lia.
Defined.

(** ** Reasons *)

Lemma build_reasons_nil (proj_skills shared matched complementary : list string)
    (emb_score : Q) :
  build_reasons proj_skills shared matched complementary emb_score = []
  ↔ shared = [] ∧ matched = [] ∧ (length complementary < 3)%nat
    ∧ emb_score <= 7 # 10.
Proof.
  unfold build_reasons. split.
  - intros H.
    apply app_eq_nil in H as [H1 H]. apply app_eq_nil in H as [H2 H].
    apply app_eq_nil in H as [H3 H]. apply app_eq_nil in H as [H4 H5].
    split; [|split; [|split]].
    + destruct shared; [done|]. simpl in H1. discriminate.
    + by destruct matched.
    + destruct (Z.leb_spec 3 (Z.of_nat (length complementary))); [discriminate | lia].
    + destruct (Qcompare_spec emb_score (7 # 10)) as [E|E|E];
        [by rewrite E | by apply Qlt_le_weak | discriminate].
  - intros (-> & -> & Hc & He). cbn [length app Z.of_nat Z.ltb Z.compare].
    match goal with |- context [(?a && ?b)] => destruct (a && b) eqn:E2 end.
    { apply andb_true_iff in E2 as [_ E2]. apply Z.leb_le in E2. lia. }
    destruct (Z.leb_spec 3 (Z.of_nat (length complementary))); [lia|]. simpl.
    destruct (Qcompare_spec emb_score (7 # 10)) as [E|E|E]; [done | done | lra].
Qed.

Lemma build_reasons_head (proj_skills shared matched complementary : list string)
    (emb_score : Q) :
  shared ≠ [] →
  head (build_reasons proj_skills shared matched complementary emb_score)
  = Some (pretty (Z.of_nat (length shared)) +:+ "/"
            +:+ pretty (Z.of_nat (length proj_skills))
            +:+ " required skills matched").
Proof. intros H. unfold build_reasons. by destruct shared. Qed.

Lemma build_reasons_bonus (proj_skills shared matched complementary : list string)
    (emb_score : Q) :
  (3 <= length complementary)%nat →
  ("+" +:+ pretty (Z.of_nat (length complementary)) +:+ " bonus skills")
  ∈ build_reasons proj_skills shared matched complementary emb_score.
Proof.
  intros H. unfold build_reasons.
  destruct (Z.leb_spec 3 (Z.of_nat (length complementary))); [|lia].
  rewrite !elem_of_app. do 3 right. left. by left.
Qed.

(** X13: the reasons of a returned match.  With a shared skill the first
    reason is "n/m required skills matched", where [m] is the length of the
    project's skill list as given; three or more required skills that the
    candidate lacks are reported as "+k bonus skills"; and there is no
    reason at all exactly when no skill is shared, no role matched, fewer
    than three required skills are lacking and the similarity is at most
    0.7. *)
Theorem match_reasons cosine (user_data project_data : Dict) (m : Match) :
  match_user_to_project cosine user_data project_data = Ok m →
  ∃ emb_score,
    embedding_score_of cosine user_data project_data = Ok emb_score
    ∧ (shared_skills m ≠ [] →
       head (reasons m)
       = Some (pretty (Z.of_nat (length (shared_skills m))) +:+ "/"
                 +:+ pretty (Z.of_nat (length (proj_skills_of project_data)))
                 +:+ " required skills matched"))
    ∧ ((3 <= length (complementary_skills m))%nat →
       ("+" +:+ pretty (Z.of_nat (length (complementary_skills m))) +:+ " bonus skills")
       ∈ reasons m)
    ∧ (reasons m = []
       ↔ shared_skills m = [] ∧ snd (role_match_of user_data project_data) = []
         ∧ (length (complementary_skills m) < 3)%nat ∧ emb_score <= 7 # 10).
Proof.
  intros Hm.
  destruct (match_user_to_project_parts _ _ _ _ Hm)
    as (sk & em & ex & _ & Hem & _ & _ & Hr & _).
  exists em. split; [exact Hem|]. rewrite Hr.
  split; [apply build_reasons_head|].
  split; [apply build_reasons_bonus | apply build_reasons_nil].
Qed.

Lemma match_reasons_witness :
  ∃ m, match_user_to_project example_cosine sample_user repeated_project = Ok m
       ∧ head (reasons m) = Some "1/6 required skills matched"
       ∧ "+3 bonus skills" ∈ reasons m.
Proof.
  eexists. split; [vm_compute; reflexivity|].
  destruct (match_reasons example_cosine sample_user repeated_project _ eq_refl)
    as (emb & _ & H1 & H2 & _).
  split; [apply H1; discriminate | apply H2; simpl; lia].
Defined.

(** ** More on the ranking *)

Lemma scored_length cosine (candidates : list Dict) (project_data : Dict) :
  (length (scored cosine candidates project_data) <= length candidates)%nat.
Proof.
  unfold scored. induction candidates as [|c cs IH]; csimpl; [done|].
  destruct (match_user_to_project cosine c project_data); csimpl; lia.
Qed.

Lemma scored_elem_of cosine (candidates : list Dict) (project_data : Dict) (m : Match) :
  m ∈ scored cosine candidates project_data
  ↔ ∃ c, c ∈ candidates ∧ match_user_to_project cosine c project_data = Ok m.
Proof.
  unfold scored. rewrite list_elem_of_omap. split.
  - intros (c & Hc & H). exists c. split; [done|].
    destruct (match_user_to_project cosine c project_data); by simplify_eq.
  - intros (c & Hc & H). exists c. by rewrite H.
Qed.

(** X14: for [0 <= k <= k'], the ranking cut at [k] is the first [k]
    entries of the ranking cut at [k']; it has [k] entries, or one per
    candidate that could be scored when those are fewer. *)
Theorem rank_candidates_top_k cosine (candidates : list Dict) (project_data : Dict)
    (k k' : Z) :
  (0 <= k <= k')%Z →
  ∃ ranked ranked',
    rank_candidates cosine candidates project_data k = Ok ranked
    ∧ rank_candidates cosine candidates project_data k' = Ok ranked'
    ∧ ranked = take (Z.to_nat k) ranked'
    ∧ length ranked
      = Nat.min (Z.to_nat k) (length (scored cosine candidates project_data))
    ∧ (length (scored cosine candidates project_data) <= length candidates)%nat.
Proof.
  intros [Hk Hk']. rewrite !rank_candidates_eq. unfold py_slice_to.
  destruct (Z.leb_spec 0 k); [|lia]. destruct (Z.leb_spec 0 k'); [|lia].
  do 2 eexists. split; [reflexivity|]. split; [reflexivity|].
  split; [|split].
  - rewrite take_take. f_equal. lia.
  - rewrite length_take. by rewrite (Permutation_length (sort_matches_perm _)).
  - apply scored_length.
Qed.

Lemma rank_candidates_top_k_witness :
  ∃ ranked ranked',
    rank_candidates example_cosine [sample_user; malformed_user; strong_user]
      sample_project 1 = Ok ranked
    ∧ rank_candidates example_cosine [sample_user; malformed_user; strong_user]
        sample_project 5 = Ok ranked'
    ∧ ranked = take 1 ranked'.
Proof.
  destruct (rank_candidates_top_k example_cosine
              [sample_user; malformed_user; strong_user] sample_project 1 5)
    as (r & r' & H1 & H2 & H3 & _); [lia|].
  exists r, r'. auto.
Defined.

(** X15: every ranked match is the match of a candidate of the batch; and
    when [top_k] is at least the size of the batch, every candidate that
    could be scored has its match in the ranking. *)
Theorem rank_candidates_members cosine (candidates : list Dict) (project_data : Dict)
    (top_k : Z) (ranked : list Match) :
  rank_candidates cosine candidates project_data top_k = Ok ranked →
  (∀ m, m ∈ ranked →
        ∃ c, c ∈ candidates ∧ match_user_to_project cosine c project_data = Ok m)
  ∧ ((Z.of_nat (length candidates) <= top_k)%Z →
     ∀ c m, c ∈ candidates → match_user_to_project cosine c project_data = Ok m →
            m ∈ ranked).
Proof.
  rewrite rank_candidates_eq. intros [= <-]. split.
  - intros m Hm. apply scored_elem_of.
    rewrite <- (sort_matches_perm (scored cosine candidates project_data)).
    unfold py_slice_to in Hm.
    destruct (0 <=? top_k)%Z; by apply subseteq_take in Hm.
  - intros Hk c m Hc Hm. unfold py_slice_to.
    destruct (Z.leb_spec 0 top_k); [|lia].
    rewrite take_ge.
    + rewrite sort_matches_perm. apply scored_elem_of. eauto.
    + rewrite (Permutation_length (sort_matches_perm _)).
      pose proof (scored_length cosine candidates project_data). lia.
Qed.

Lemma rank_candidates_members_witness :
  ∃ ranked m,
    rank_candidates example_cosine [sample_user; malformed_user; strong_user]
      sample_project 3 = Ok ranked
    ∧ match_user_to_project example_cosine strong_user sample_project = Ok m
    ∧ m ∈ ranked.
Proof.
  eexists. eexists. split; [vm_compute; reflexivity|].
  split; [vm_compute; reflexivity|].
  eapply (proj2 (rank_candidates_members example_cosine
                   [sample_user; malformed_user; strong_user] sample_project 3 _ eq_refl)).
  - simpl. lia.
  - apply list_elem_of_In. right. right. left. reflexivity.
  - vm_compute. reflexivity.
Defined.

Lemma same_key_ranks (a b : Match) :
  same_key a b = true ↔ ranks_before a b ∧ ranks_before b a.
Proof.
  unfold same_key. rewrite andb_true_iff, !negb_true_iff, !key_ltb_false. done.
Qed.

Lemma insert_desc_filter (a m : Match) (l : list Match) :
  List.filter (same_key a) (insert_desc m l)
  = if same_key a m then m :: List.filter (same_key a) l
    else List.filter (same_key a) l.
Proof.
  induction l as [|y l IH]; simpl; [done|].
  destruct (key_ltb (sort_key m) (sort_key y)) eqn:E; simpl; [|done].
  rewrite IH.
  destruct (same_key a m) eqn:Em, (same_key a y) eqn:Ey; try done.
  apply same_key_ranks in Em as [_ Hma]. apply same_key_ranks in Ey as [Hay _].
  pose proof (ranks_before_trans _ _ _ Hma Hay) as H.
  apply key_ltb_false in H. congruence.
Qed.

(** X16: the sort is stable: the matches that share a sort key come out
    in the order in which they went in. *)
Theorem sort_matches_stable_ties (a : Match) (l : list Match) :
  List.filter (same_key a) (sort_matches l) = List.filter (same_key a) l.
Proof.
  induction l as [|m l IH]; [reflexivity|].
  unfold sort_matches in *. simpl. rewrite insert_desc_filter, IH. done.
Qed.

(** ** More on the featurizer *)

(** X17: [fix_width] returns exactly [dim] numbers: the row itself followed
    by zeros when the row is shorter, its first [dim] numbers otherwise. *)
Theorem fix_width_spec (dim : nat) (row : list Q) :
  length (fix_width dim row) = dim
  ∧ take (Nat.min dim (length row)) (fix_width dim row) = take dim row
  ∧ drop (length row) (fix_width dim row) = replicate (dim - length row) 0.
Proof.
  unfold fix_width. destruct (Nat.ltb_spec (length row) dim) as [H|H].
  - split; [rewrite length_app, length_replicate; lia|].
    rewrite Nat.min_r by lia. split.
    + rewrite take_app_length. symmetry. apply take_ge. lia.
    + by rewrite drop_app_length.
  - split; [rewrite length_take; lia|].
    rewrite Nat.min_l by lia. split.
    + rewrite take_take. f_equal. lia.
    + rewrite drop_ge by (rewrite length_take; lia).
      replace (dim - length row)%nat with 0%nat by lia. reflexivity.
Qed.

Section FeaturizerFurther.

Context {Vocabulary : Type}.
Variable fit : list string → result Vocabulary.
Variable transform : Vocabulary → string → list Q.

Lemma _encode_text_length (self : EmbeddingEngine Vocabulary) (text : string)
    (vec : list Q) :
  engine_ok self →
  fst (_encode_text fit transform self text) = Ok vec →
  length vec = DEFAULT_DIM.
Proof.
  intros Hok. pose proof (_encode_text_ok fit transform self text Hok) as [Hd _].
  revert Hd. unfold _encode_text.
  destruct (if _fitted self then (Ok tt, self) else _ensure_fitted fit self [text])
    as [[[]|e] self']; simpl; [|discriminate].
  unfold transform_row. destruct (vectorizer self') as [v|]; simpl; [|discriminate].
  intros Hd [= <-]. by rewrite fix_width_length.
Qed.

Lemma unfitted_encode (self : EmbeddingEngine Vocabulary) (text : string) :
  _fitted self = false → vectorizer self = None →
  _encode_text fit transform self text
  = match fit [text] with
    | Ok v =>
        (Ok (fix_width (embedding_dim self) (transform v text)),
         {| vectorizer := Some v; embedding_dim := embedding_dim self;
            _fitted := true; _corpus := [text] |})
    | Raise e =>
        (Raise e,
         {| vectorizer := None; embedding_dim := embedding_dim self;
            _fitted := false; _corpus := [text] |})
    end.
Proof.
  intros Hf Hv. unfold _encode_text, _ensure_fitted, transform_row.
  rewrite Hf, Hv. by destruct (fit [text]).
Qed.

Lemma run_encodes_first_fit (self : EmbeddingEngine Vocabulary) (texts : list string) :
  _fitted self = false → vectorizer self = None → embedding_dim self = DEFAULT_DIM →
  let self' := run_calls fit transform self (CallEncodeText <$> texts) in
  vectorizer self' = first_fit fit texts
  ∧ _fitted self' = bool_decide (is_Some (first_fit fit texts))
  ∧ embedding_dim self' = DEFAULT_DIM.
Proof.
  revert self. induction texts as [|t ts IH]; intros self Hf Hv Hd; simpl.
  - by rewrite Hf, Hv.
  - rewrite (unfitted_encode self t Hf Hv).
    destruct (fit [t]) as [v|e]; simpl.
    + rewrite run_calls_fitted; [done| |done].
      split; [done|]. intros _. by eexists.
    + by apply IH.
Qed.

(** X18: after any series of texts has been embedded on a new engine, the
    vocabulary is the one fitted on the first text whose fit succeeded (a
    failed fit leaves the engine unfitted), and every further text is
    transformed with that vocabulary. *)
Theorem vocabulary_is_first_fit (texts : list string) :
  let self := run_calls fit transform EmbeddingEngine_init (CallEncodeText <$> texts) in
  vectorizer self = first_fit fit texts
  ∧ _fitted self = bool_decide (is_Some (first_fit fit texts))
  ∧ (∀ v text, first_fit fit texts = Some v →
       _encode_text fit transform self text
       = (Ok (fix_width DEFAULT_DIM (transform v text)), self)).
Proof.
  intros self.
  destruct (run_encodes_first_fit EmbeddingEngine_init texts) as (Hv & Hf & Hd);
    [done..|].
  fold self in Hv, Hf, Hd. split; [exact Hv|]. split; [exact Hf|].
  intros v text Hfirst. rewrite Hfirst in Hv, Hf.
  rewrite (_encode_text_fitted fit transform self text v); [|done..].
  by rewrite Hd.
Qed.

(** X19: on a facade whose engine, if it has one, is in a state the
    constructor and the methods produce, [ensure_embedding] returns 384
    numbers and leaves the engine in such a state. *)
Theorem ensure_embedding_width (self : MatchingEngineWrapper Vocabulary)
    (data_dict : Dict) (kind : string) :
  (∀ eng, embedding_engine self = Some eng → engine_ok eng) →
  (∃ vec, fst (ensure_embedding fit transform self data_dict kind) = Ok vec
          ∧ length vec = 384%nat)
  ∧ (∀ eng, embedding_engine (snd (ensure_embedding fit transform self data_dict kind))
            = Some eng → engine_ok eng).
Proof.
  intros Hok. unfold ensure_embedding.
  destruct (embedding_engine self) as [eng|] eqn:Heng.
  - specialize (Hok eng eq_refl).
    assert (H : ∀ r : result (list Q) * EmbeddingEngine Vocabulary,
                engine_ok (snd r) →
                (∀ vec, fst r = Ok vec → length vec = DEFAULT_DIM) →
                (∃ vec, fst (let '(emb, engine) := r in
                             (try_except emb (λ _, Ok filler_vector),
                              {| embedding_engine := Some engine |})) = Ok vec
                        ∧ length vec = 384%nat)
                ∧ (∀ eng',
                     embedding_engine
                       (snd (let '(emb, engine) := r in
                             (try_except emb (λ _, Ok filler_vector),
                              {| embedding_engine := Some engine |}))) = Some eng' →
                     engine_ok eng')).
    { intros [[vec|e] eng'] Hok' Hlen; simpl in *.
      - split; [exists vec; split; [done | by apply Hlen]|]. by intros ? [= <-].
      - split; [exists filler_vector; split; [done | reflexivity]|]. by intros ? [= <-]. }
    apply H.
    + destruct (decide (kind = "profile")).
      * unfold embed_profile. destruct (create_profile_text data_dict); [|done].
        by apply _encode_text_ok.
      * unfold embed_project. destruct (create_project_text data_dict); [|done].
        by apply _encode_text_ok.
    + intros vec. destruct (decide (kind = "profile")).
      * unfold embed_profile. destruct (create_profile_text data_dict); [|done].
        by apply _encode_text_length.
      * unfold embed_project. destruct (create_project_text data_dict); [|done].
        by apply _encode_text_length.
  - simpl. split; [exists filler_vector; by split|].
    rewrite Heng. discriminate.
Qed.

End FeaturizerFurther.

Lemma vocabulary_is_first_fit_witness :
  first_fit example_fit [""; "python react"; "go"] = Some ["python"; "react"]
  ∧ _encode_text example_fit example_transform
      (run_calls example_fit example_transform EmbeddingEngine_init
         (CallEncodeText <$> [""; "python react"; "go"])) "go react"
    = (Ok (fix_width DEFAULT_DIM (example_transform ["python"; "react"] "go react")),
       run_calls example_fit example_transform EmbeddingEngine_init
         (CallEncodeText <$> [""; "python react"; "go"])).
Proof.
  split; [reflexivity|].
  apply (vocabulary_is_first_fit example_fit example_transform
           [""; "python react"; "go"]).
  reflexivity.
Defined.

Lemma ensure_embedding_width_witness :
  ∃ vec,
    fst (ensure_embedding example_fit example_transform
           (mkWrapper (Some EmbeddingEngine_init)) sample_user "profile") = Ok vec
    ∧ length vec = 384%nat.
Proof.
  apply (ensure_embedding_width example_fit example_transform
           (mkWrapper (Some EmbeddingEngine_init)) sample_user "profile").
  intros eng [= <-]. split; [reflexivity | discriminate].
Defined.

(** X20: [normalize_skills] lists every skill it is given exactly once,
    for a list as for a dict of lists. *)
Theorem normalize_skills_spec (skills : skills_arg) :
  NoDup (normalize_skills skills)
  ∧ ∀ s, s ∈ normalize_skills skills ↔ s ∈ skills_of_arg skills.
Proof.
  unfold normalize_skills, py_list_of_set.
  destruct skills as [l|cats]; simpl; (split; [apply NoDup_elements|]);
    intros s; rewrite elem_of_elements; set_solver.
Qed.

(** ** Text builders: when they raise *)

Lemma experience_level_int (z : Z) : ∃ level, experience_level (PyInt z) = Ok level.
Proof.
  unfold experience_level. simpl.
  destruct (z <=? 1)%Z; simpl; [by eexists|].
  destruct (z <=? 3)%Z; simpl; [by eexists|].
  destruct (z <=? 7)%Z; simpl; by eexists.
Qed.

Lemma create_profile_text_cases (profile_data : Dict) :
  match d_experience_years profile_data with
  | Some (PyStr _) => create_profile_text profile_data = Raise TypeError
  | _ => ∃ text, create_profile_text profile_data = Ok text
  end.
Proof.
  unfold create_profile_text.
  destruct (d_experience_years profile_data) as [[|z|s]|]; simpl.
  - by eexists.
  - destruct (experience_level_int z) as [level ->]. simpl. by eexists.
  - reflexivity.
  - by eexists.
Qed.

(** X21: [create_profile_text] raises exactly when [experience_years] is a
    string, and then with a TypeError; for such a record [ensure_embedding]
    answers with the filler and leaves the engine untouched. *)
Theorem profile_text_errors (profile_data : Dict) :
  ((∃ text, create_profile_text profile_data = Ok text)
   ↔ ∀ s, d_experience_years profile_data ≠ Some (PyStr s))
  ∧ (∀ s, d_experience_years profile_data = Some (PyStr s) →
       create_profile_text profile_data = Raise TypeError
       ∧ ∀ (Vocabulary : Type) (fit : list string → result Vocabulary)
           (transform : Vocabulary → string → list Q)
           (eng : EmbeddingEngine Vocabulary),
           ensure_embedding fit transform (mkWrapper (Some eng)) profile_data "profile"
           = (Ok filler_vector, mkWrapper (Some eng))).
Proof.
  pose proof (create_profile_text_cases profile_data) as H.
  split.
  - destruct (d_experience_years profile_data) as [[|z|s]|];
      try (split; [done | by intros _]).
    rewrite H. split; [by intros [? [=]] | intros H'; by destruct (H' s)].
  - intros s Hs. rewrite Hs in H. split; [exact H|].
    intros V fit transform eng. unfold ensure_embedding, embed_profile. simpl.
    by rewrite H.
Qed.

Lemma profile_text_errors_witness :
  ensure_embedding example_fit example_transform
    (mkWrapper (Some EmbeddingEngine_init)) malformed_user "profile"
  = (Ok filler_vector, mkWrapper (Some EmbeddingEngine_init)).
Proof.
  apply (proj2 (profile_text_errors malformed_user) "five"). reflexivity.
Defined.

(** X22: [create_project_text] returns exactly when [min_experience]
    (0 if absent) is an integer and either it is positive or
    [max_experience] (10 if absent) is an integer too; otherwise it raises
    a TypeError.  A project whose [min_experience] is [None] cannot be
    embedded. *)
Theorem project_text_errors (project_data : Dict) :
  ((∃ text, create_project_text project_data = Ok text)
   ↔ project_bounds_defined project_data)
  ∧ (¬ project_bounds_defined project_data →
     create_project_text project_data = Raise TypeError)
  ∧ (d_min_experience project_data = Some PyNone →
     create_project_text project_data = Raise TypeError).
Proof.
  unfold create_project_text, project_bounds_defined.
  destruct (default (PyInt 0) (d_min_experience project_data)) as [|mn|smn] eqn:Emin;
    simpl.
  - split; [split; [by intros [? [=]] | by intros (? & [=] & _)]|].
    split; done.
  - destruct (Z.ltb_spec 0 mn); simpl.
    + split; [split; [intros _; exists mn; auto | by eexists]|].
      split; [intros H'; destruct H'; exists mn; auto|].
      intros Hn. rewrite Hn in Emin. discriminate.
    + destruct (default (PyInt 10) (d_max_experience project_data)) as [|mx|smx]; simpl.
      * split; [split; [by intros [? [=]] | intros (? & [= <-] & [?|[? [=]]]); lia]|].
        split; [done|]. intros Hn. rewrite Hn in Emin. discriminate.
      * split; [split; [intros _; exists mn; split; [done|]; right; by eexists|]|].
        { intros _. destruct (mx <? 10)%Z; by eexists. }
        split; [intros H'; destruct H'; exists mn; split; [done|]; right; by eexists|].
        intros Hn. rewrite Hn in Emin. discriminate.
      * split; [split; [by intros [? [=]] | intros (? & [= <-] & [?|[? [=]]]); lia]|].
        split; [done|]. intros Hn. rewrite Hn in Emin. discriminate.
  - split; [split; [by intros [? [=]] | by intros (? & [=] & _)]|].
    split; done.
Qed.

Lemma project_text_errors_witness :
  create_project_text null_bounds_project = Raise TypeError.
Proof.
  apply (project_text_errors null_bounds_project). reflexivity.
Defined.

(** ** The callers *)






Lemma fix_width_cons (row : list Q) :
  ∃ x l, fix_width DEFAULT_DIM row = x :: l.
Proof.
  pose proof (fix_width_length DEFAULT_DIM row) as H.
  destruct (fix_width DEFAULT_DIM row) as [|x l]; [discriminate | by eauto].
Qed.

(** X25: the embedding stored for a new project never makes the request
    fail: the text of title, description and required skills is always
    built, a new engine is fitted on that text alone, and the stored value
    is the 384 numbers of the text transformed with its own vocabulary, or
    nothing when the fit raises. *)
Theorem create_project_embedding_spec {Vocabulary : Type}
    (fit : list string → result Vocabulary) (transform : Vocabulary → string → list Q)
    (title : string) (description : option string)
    (required_skills : option (list string)) :
  ∃ text,
    create_project_text (create_project_dict title description required_skills)
    = Ok text
    ∧ create_project_embedding fit transform title description required_skills
      = Ok (match fit [text] with
            | Ok v => Some (fix_width DEFAULT_DIM (transform v text))
            | Raise _ => None
            end)
    ∧ ∀ vec,
        create_project_embedding fit transform title description required_skills
        = Ok (Some vec) → length vec = 384%nat.
Proof.
  eexists. split; [reflexivity|].
  assert (H : ∀ text,
            create_project_text (create_project_dict title description required_skills)
            = Ok text →
            create_project_embedding fit transform title description required_skills
            = Ok (match fit [text] with
                  | Ok v => Some (fix_width DEFAULT_DIM (transform v text))
                  | Raise _ => None
                  end)).
  { intros text Ht. unfold create_project_embedding, embed_project. rewrite Ht.
    rewrite (unfitted_encode fit transform EmbeddingEngine_init text eq_refl eq_refl).
    destruct (fit [text]) as [v|e]; simpl; [|reflexivity].
    change (embedding_dim EmbeddingEngine_init) with DEFAULT_DIM.
    by destruct (fix_width_cons (transform v text)) as (x & l & ->). }
  split.
  - apply H. reflexivity.
  - intros vec. rewrite (H _ eq_refl).
    destruct (fit _) as [v|e]; [|discriminate].
    intros [= <-]. apply fix_width_length.
Qed.

(** ** Monotonicity of the skill score *)

Lemma skill_score_mono (U U' R : gset string) :
  U ⊆ U' → 0 < Qsize R →
  Qmin (Qsize (U ∩ R) / Qsize R + Qmin (Qsize (U ∖ R) * (5 # 100)) (2 # 10)) 1
  <= Qmin (Qsize (U' ∩ R) / Qsize R + Qmin (Qsize (U' ∖ R) * (5 # 100)) (2 # 10)) 1.
Proof.
  intros Hsub Hpos.
  assert (H1 : Qsize (U ∩ R) / Qsize R <= Qsize (U' ∩ R) / Qsize R).
  { unfold Qdiv. apply Qmult_le_compat_r.
    - apply Qsize_le. set_solver.
    - apply Qinv_le_0_compat. lra. }
  assert (H2 : Qmin (Qsize (U ∖ R) * (5 # 100)) (2 # 10)
               <= Qmin (Qsize (U' ∖ R) * (5 # 100)) (2 # 10)).
  { apply Q.min_le_compat_r.
    assert (Qsize (U ∖ R) <= Qsize (U' ∖ R)) by (apply Qsize_le; set_solver).
    lra. }
  apply Q.min_le_compat_r. lra.
Qed.

(** X26: a candidate who gains skills never loses skill score: if the
    normalized keys of one skill list are among those of another, the
    second scores at least as high against the same requirement, shares at
    least as many skills and lacks at most as many. *)
Theorem skill_overlap_monotone (user_skills user_skills' required_skills : list string) :
  normalized_keys user_skills ⊆ normalized_keys user_skills' →
  ∃ score shared complementary score' shared' complementary',
    calculate_skill_overlap user_skills required_skills
    = Ok (score, shared, complementary)
    ∧ calculate_skill_overlap user_skills' required_skills
      = Ok (score', shared', complementary')
    ∧ score <= score'
    ∧ (length shared <= length shared')%nat
    ∧ (length complementary' <= length complementary)%nat.
Proof.
  intros Hsub. destruct required_skills as [|x l].
  - exists (1 # 2), [], [], (1 # 2), [], []. repeat split; (done || lia || discriminate).
  - destruct (calculate_skill_overlap_nonempty user_skills (x :: l))
      as (sh & co & Heq & Hs & Hc & _); [done|].
    destruct (calculate_skill_overlap_nonempty user_skills' (x :: l))
      as (sh' & co' & Heq' & Hs' & Hc' & _); [done|].
    do 6 eexists. split; [exact Heq|]. split; [exact Heq'|].
    split; [|split].
    + apply skill_score_mono; [done|]. by apply normalized_keys_nonempty.
    + rewrite <- (length_fmap normalize_skill sh), Hs.
      rewrite <- (length_fmap normalize_skill sh'), Hs'.
      rewrite !py_sorted_length. apply subseteq_size. set_solver.
    + rewrite <- (length_fmap normalize_skill co), Hc.
      rewrite <- (length_fmap normalize_skill co'), Hc'.
      rewrite !py_sorted_length. apply subseteq_size. set_solver.
Qed.

Lemma skill_overlap_monotone_witness :
  ∃ score shared complementary score' shared' complementary',
    calculate_skill_overlap ["python"] ["Python"; "SQL"; "Go"]
    = Ok (score, shared, complementary)
    ∧ calculate_skill_overlap ["sql"; "Python"; "rust"] ["Python"; "SQL"; "Go"]
      = Ok (score', shared', complementary')
    ∧ score <= score'.
Proof.
  destruct (skill_overlap_monotone ["python"] ["sql"; "Python"; "rust"]
              ["Python"; "SQL"; "Go"])
    as (s & sh & co & s' & sh' & co' & H1 & H2 & H3 & _).
  - apply (bool_decide_unpack _). vm_compute. exact I.
  - exists s, sh, co, s', sh', co'. auto.
Defined.
